(** * openbook_service: the /search-books gateway (src/app.py)

    A shallow embedding of the Flask handler [search_books] and of its four
    helpers.  Python values are an inductive type, exceptions are data, and
    the outbound calls (moderation filter, HTTP POST/GET) are answered by an
    oracle threaded through a small state-and-trace monad, so that every
    statement about "which collaborator was called" is a statement about the
    trace of a run. *)

From Stdlib Require Import String Ascii List ZArith Bool Lia DecimalString.
Import ListNotations.
Open Scope string_scope.
Set Warnings "-register-all".

(** ** Python values *)

(** The values that JSON decoding and [eval] of a JSON-like literal produce.
    Floats and tuples do not occur in the claims and are left out.  A dict
    is an association list in insertion order, as CPython keeps it. *)
Inductive pyval : Type :=
| PyNone
| PyBool (b : bool)
| PyInt (z : Z)
| PyStr (s : string)
| PyList (l : list pyval)
| PyDict (d : list (pyval * pyval)).

(** An exception is its class name and [str(e)]. *)
Inductive exn : Type := Exn (cls : string) (msg : string).

Definition exn_str (e : exn) : string := let 'Exn _ m := e in m.

Inductive result (A : Type) : Type :=
| Ok (a : A)
| Raise (e : exn).
Arguments Ok {A} a.
Arguments Raise {A} e.

Definition type_name (v : pyval) : string :=
  match v with
  | PyNone => "NoneType"
  | PyBool _ => "bool"
  | PyInt _ => "int"
  | PyStr _ => "str"
  | PyList _ => "list"
  | PyDict _ => "dict"
  end.

Definition TypeError (m : string) : exn := Exn "TypeError" m.
Definition AttributeError (m : string) : exn := Exn "AttributeError" m.
Definition KeyError (m : string) : exn := Exn "KeyError" m.
Definition NameError (m : string) : exn := Exn "NameError" m.

(** [bool(v)] *)
Definition truthy (v : pyval) : bool :=
  match v with
  | PyNone => false
  | PyBool b => b
  | PyInt z => negb (Z.eqb z 0)
  | PyStr s => negb (String.eqb s EmptyString)
  | PyList l => match l with [] => false | _ => true end
  | PyDict d => match d with [] => false | _ => true end
  end.

(** [isinstance(v, str)] and [isinstance(v, dict)] *)
Definition is_str (v : pyval) : bool :=
  match v with PyStr _ => true | _ => false end.
Definition is_dict (v : pyval) : bool :=
  match v with PyDict _ => true | _ => false end.

(** *** Dict keys *)

Definition hashable (v : pyval) : bool :=
  match v with
  | PyList _ | PyDict _ => false
  | _ => true
  end.

Definition num_of_bool (b : bool) : Z := if b then 1%Z else 0%Z.

(** [a == b] on hashable scalars ([True == 1] holds in Python, so a bool
    and an int name the same dict slot). *)
Definition key_eqb (a b : pyval) : bool :=
  match a, b with
  | PyNone, PyNone => true
  | PyStr s, PyStr t => String.eqb s t
  | PyInt x, PyInt y => Z.eqb x y
  | PyBool x, PyBool y => Bool.eqb x y
  | PyBool x, PyInt y => Z.eqb (num_of_bool x) y
  | PyInt x, PyBool y => Z.eqb x (num_of_bool y)
  | _, _ => false
  end.

Definition entries := list (pyval * pyval).

Fixpoint dict_lookup (d : entries) (k : pyval) : option pyval :=
  match d with
  | [] => None
  | (k', v) :: rest => if key_eqb k' k then Some v else dict_lookup rest k
  end.

Definition dict_has (d : entries) (k : pyval) : bool :=
  match dict_lookup d k with Some _ => true | None => false end.

(** [d[k] = v]: overwrite in place, else append at the end. *)
Fixpoint dict_set (d : entries) (k v : pyval) : entries :=
  match d with
  | [] => [(k, v)]
  | (k', v') :: rest =>
      if key_eqb k' k then (k', v) :: rest else (k', v') :: dict_set rest k v
  end.

(** [del d[k]] when present. *)
Fixpoint dict_del (d : entries) (k : pyval) : entries :=
  match d with
  | [] => []
  | (k', v') :: rest =>
      if key_eqb k' k then rest else (k', v') :: dict_del rest k
  end.

(** The display [{k1: v1, k2: v2}]: keys are hashed left to right. *)
Definition unhashable (v : pyval) : exn :=
  TypeError ("unhashable type: '" ++ type_name v ++ "'").

Definition dict_display2 (k1 v1 k2 v2 : pyval) : result pyval :=
  if negb (hashable k1) then Raise (unhashable k1)
  else if negb (hashable k2) then Raise (unhashable k2)
  else Ok (PyDict (dict_set [(k1, v1)] k2 v2)).

(** [obj.get(key, default)] with a string key: only dicts have [get]. *)
Definition no_attribute (v : pyval) (a : string) : exn :=
  AttributeError ("'" ++ type_name v ++ "' object has no attribute '" ++ a ++ "'").

Definition or_default (found : option pyval) (default : pyval) : pyval :=
  match found with
  | Some v => v
  | None => default
  end.

Definition py_get (obj : pyval) (key : string) (default : pyval) : result pyval :=
  match obj with
  | PyDict d => Ok (or_default (dict_lookup d (PyStr key)) default)
  | _ => Raise (no_attribute obj "get")
  end.

(** [substring s t]: does [s] occur in [t]? *)
Definition substring (s t : string) : bool :=
  match String.index 0 s t with Some _ => true | None => false end.

Definition is_strb (key : string) (v : pyval) : bool :=
  match v with PyStr s => String.eqb s key | _ => false end.

(** [key in obj] for a string [key]. *)
Definition py_in (key : string) (obj : pyval) : result bool :=
  match obj with
  | PyDict d => Ok (dict_has d (PyStr key))
  | PyList l => Ok (existsb (is_strb key) l)
  | PyStr s => Ok (substring key s)
  | _ => Raise (TypeError ("argument of type '" ++ type_name obj ++ "' is not iterable"))
  end.

(** [obj[key]] for a string [key]. *)
Definition py_getitem (obj : pyval) (key : string) : result pyval :=
  match obj with
  | PyDict d =>
      match dict_lookup d (PyStr key) with
      | Some v => Ok v
      | None => Raise (KeyError ("'" ++ key ++ "'"))
      end
  | PyList _ => Raise (TypeError "list indices must be integers or slices, not str")
  | PyStr _ => Raise (TypeError "string indices must be integers, not 'str'")
  | _ => Raise (TypeError ("'" ++ type_name obj ++ "' object is not subscriptable"))
  end.

(** ** Text *)

(** A Python [str] is held as its UTF-8 bytes. *)

Definition nl : string := String "010"%char EmptyString.

(** U+2022, the bullet of the book list. *)
Definition bullet : string :=
  String "226"%char (String "128"%char (String "162"%char EmptyString)).

Definition byte_in (lo hi : N) (a : ascii) : bool :=
  (N.leb lo (N_of_ascii a) && N.leb (N_of_ascii a) hi)%bool.

Definition byte_is (n : N) (a : ascii) : bool := N.eqb (N_of_ascii a) n.

(** The code points [str.isspace] accepts, by encoded length:
    U+0009..000D, U+001C..0020; U+0085, U+00A0; U+1680, U+2000..200A,
    U+2028, U+2029, U+202F, U+205F, U+3000. *)
Definition space1 (a : ascii) : bool :=
  (byte_in 9 13 a || byte_in 28 32 a)%bool.

Definition space2 (a b : ascii) : bool :=
  (byte_is 194 a && (byte_is 133 b || byte_is 160 b))%bool.

Definition space3 (a b c : ascii) : bool :=
  ((byte_is 225 a && byte_is 154 b && byte_is 128 c)
   || (byte_is 226 a && byte_is 128 b
       && (byte_in 128 138 c || byte_in 168 169 c || byte_is 175 c))
   || (byte_is 226 a && byte_is 129 b && byte_is 159 c)
   || (byte_is 227 a && byte_is 128 b && byte_is 128 c))%bool.

(** [drop_space fwd bs]: drop the leading whitespace code points of [bs];
    with [fwd = false] the bytes are read back to front. *)
Fixpoint drop_space (fwd : bool) (bs : list ascii) : list ascii :=
  match bs with
  | [] => []
  | a :: r1 =>
      if space1 a then drop_space fwd r1 else
      match r1 with
      | [] => bs
      | b :: r2 =>
          if (if fwd then space2 a b else space2 b a) then drop_space fwd r2 else
          match r2 with
          | [] => bs
          | c :: r3 =>
              if (if fwd then space3 a b c else space3 c b a)
              then drop_space fwd r3 else bs
          end
      end
  end.

(** [s.strip()] *)
Definition strip (s : string) : string :=
  string_of_list_ascii
    (rev (drop_space false (rev (drop_space true (list_ascii_of_string s))))).

(** The characters of a string: a byte [10xxxxxx] continues the character
    before it. *)
Definition continuation (a : ascii) : bool := byte_in 128 191 a.

Fixpoint chars (s : string) : list string :=
  match s with
  | EmptyString => []
  | String a r =>
      match r with
      | EmptyString => [String a EmptyString]
      | String b _ =>
          if continuation b then
            match chars r with
            | c :: cs => String a c :: cs
            | [] => [String a EmptyString]
            end
          else String a EmptyString :: chars r
      end
  end.

(** Well-formed UTF-8 (no overlong forms, no surrogates, at most U+10FFFF),
    which is what [bytes.decode("utf-8")] accepts. *)
Fixpoint utf8_valid (bs : list ascii) : bool :=
  match bs with
  | [] => true
  | a :: r1 =>
      if byte_in 0 127 a then utf8_valid r1 else
      match r1 with
      | [] => false
      | b :: r2 =>
          if (byte_in 194 223 a && continuation b)%bool then utf8_valid r2 else
          match r2 with
          | [] => false
          | c :: r3 =>
              if ((byte_is 224 a && byte_in 160 191 b
                   || byte_in 225 236 a && continuation b
                   || byte_is 237 a && byte_in 128 159 b
                   || byte_in 238 239 a && continuation b)
                  && continuation c)%bool
              then utf8_valid r3 else
              match r3 with
              | [] => false
              | d :: r4 =>
                  if ((byte_is 240 a && byte_in 144 191 b
                       || byte_in 241 243 a && continuation b
                       || byte_is 244 a && byte_in 128 143 b)
                      && continuation c && continuation d)%bool
                  then utf8_valid r4 else false
              end
          end
      end
  end.

(** [chunk.decode("utf-8")]; [None] stands for UnicodeDecodeError. *)
Definition decode_utf8 (chunk : string) : option string :=
  if utf8_valid (list_ascii_of_string chunk) then Some chunk else None.

Definition nonempty (s : string) : bool :=
  match s with EmptyString => false | _ => true end.

(** ** Collaborators and runs *)

(** An outbound HTTP call of the [requests] library. *)
Inductive http_request : Type :=
| Post (url : string) (json : pyval) (stream : bool)
| Get (url : string) (params : pyval).

(** What the handler reads from a [requests.Response]:
    [raise_for_status()] (an exception for a 4xx/5xx status), [json()]
    and the lines [iter_lines()] yields. *)
Record http_response : Type := {
  raise_for_status : option exn;
  json_body : result pyval;
  iter_lines : list string
}.

(** The black boxes of the spec, section 6.  [W] is the state of the outside
    world: the same request may be answered differently the second time.
    [py_eval], [json_dumps] and [py_repr] are the Python built-ins [eval],
    [json.dumps] and [repr], which are not code of this repository. *)
Record collaborators (W : Type) : Type := {
  contains_profanity : string -> bool;
  send : http_request -> W -> result http_response * W;
  py_eval : string -> result pyval;
  json_dumps : pyval -> string;
  py_repr : pyval -> string
}.
Arguments contains_profanity {W} c _.
Arguments send {W} c _ _.
Arguments py_eval {W} c _.
Arguments json_dumps {W} c _.
Arguments py_repr {W} c _.

(** One entry per collaborator call, in the order the calls are made. *)
Inductive event : Type :=
| EvModeration (text : string) (flagged : bool)
| EvHttp (req : http_request) (reply : result http_response).

(** A computation reads and updates the world, may raise, and emits the
    events of the calls it makes. *)
Definition M (W A : Type) : Type := W -> result A * W * list event.

Definition ret {W A} (a : A) : M W A := fun w => (Ok a, w, []).

Definition raise {W A} (e : exn) : M W A := fun w => (Raise e, w, []).

Definition bind {W A B} (m : M W A) (f : A -> M W B) : M W B :=
  fun w =>
    match m w with
    | (Ok a, w1, t1) =>
        match f a w1 with
        | (r, w2, t2) => (r, w2, (t1 ++ t2)%list)
        end
    | (Raise e, w1, t1) => (Raise e, w1, t1)
    end.

(** [try: m  except Exception as e: h e] *)
Definition try_except {W A} (m : M W A) (h : exn -> M W A) : M W A :=
  fun w =>
    match m w with
    | (Ok a, w1, t1) => (Ok a, w1, t1)
    | (Raise e, w1, t1) =>
        match h e w1 with
        | (r, w2, t2) => (r, w2, (t1 ++ t2)%list)
        end
    end.

Definition lift {W A} (r : result A) : M W A := fun w => (r, w, []).

Definition rbind {A B} (r : result A) (f : A -> result B) : result B :=
  match r with
  | Ok a => f a
  | Raise e => Raise e
  end.

Declare Scope py_scope.
Delimit Scope py_scope with py.
Notation "x <- m ;; k" := (bind m (fun x => k))
  (at level 61, m at next level, right associativity) : py_scope.
Notation "m ;; k" := (bind m (fun _ => k))
  (at level 61, right associativity) : py_scope.
Notation "x <~ r ;; k" := (rbind r (fun x => k))
  (at level 61, r at next level, right associativity) : py_scope.
Notation "'try' m 'except' e => h" := (try_except m (fun e => h))
  (at level 10, m at level 200, e name, h at level 200) : py_scope.
Open Scope py_scope.

(** ** Responses *)

Inductive body : Type :=
| Json (payload : pyval)
| Stream (content_type : string) (chunks : list string) (complete : bool).

(** What Flask sends: [jsonify(p), code] has status [code] and content
    [Json p]; a [Response(generator, content_type=ct)] has status 200 and
    content [Stream ct chunks complete], where [complete] is false when the
    generator raised before its input was exhausted. *)
Record response : Type := {
  status : nat;
  content : body
}.

Definition jsonify (payload : pyval) (code : nat) : response :=
  {| status := code; content := Json payload |}.

Definition error_payload (message : string) : pyval :=
  PyDict [(PyStr "error", PyStr message)].

(** ** The module *)

Definition OLLAMA_URL : string := "http://localhost:11434/api/generate".
Definition OPEN_LIBRARY_URL : string := "https://openlibrary.org/search.json".

(** The names bound at module level in app.py (imports, constants,
    functions).  A name outside this list and outside the built-ins raises
    NameError when it is read. *)
Definition module_globals : list string :=
  ["Flask"; "request"; "jsonify"; "Response"; "profanity"; "requests"; "json";
   "app"; "OLLAMA_URL"; "OPEN_LIBRARY_URL"; "search_books";
   "respond_with_profanity_message"; "generate_query_with_ollama";
   "validate_query_config"; "search_books_with_openlibrary";
   "refine_response_with_ollama"].

Definition read_global (name : string) : result unit :=
  if existsb (String.eqb name) module_globals then Ok tt
  else Raise (NameError ("name '" ++ name ++ "' is not defined")).

Definition nat_to_string (n : nat) : string :=
  NilZero.string_of_uint (Nat.to_uint n).

(** [isinstance(v, dict) and "error" in v] *)
Definition has_error (v : pyval) : bool :=
  match v with
  | PyDict d => dict_has d (PyStr "error")
  | _ => false
  end.

(** [all(...)] over a generator: stops at the first false or raising test. *)
Fixpoint py_all (tests : list (result bool)) : result bool :=
  match tests with
  | [] => Ok true
  | t :: rest =>
      b <~ t ;;
      if b then py_all rest else Ok false
  end.

Definition required_keys : list string := ["query_type"; "query_value"].

Definition validate_query_config (query_config : pyval) : result bool :=
  py_all (map (fun key => py_in key query_config) required_keys).

(** [obj[:3]], as a list of the items a [for] loop visits.  Messages are
    worded as CPython 3.12 words them. *)
Definition slice3 (obj : pyval) : result (list pyval) :=
  match obj with
  | PyList l => Ok (firstn 3 l)
  | PyStr s => Ok (map PyStr (firstn 3 (chars s)))
  | PyDict _ => Raise (KeyError "slice(None, 3, None)")
  | _ => Raise (TypeError ("'" ++ type_name obj ++ "' object is not subscriptable"))
  end.

(** The items of [sep.join(...)] must all be strings. *)
Fixpoint join_items (i : nat) (items : list pyval) : result (list string) :=
  match items with
  | [] => Ok []
  | PyStr s :: rest =>
      ss <~ join_items (S i) rest ;;
      Ok (s :: ss)
  | v :: _ =>
      Raise (TypeError ("sequence item " ++ nat_to_string i
                        ++ ": expected str instance, " ++ type_name v ++ " found"))
  end.

(** [sep.join(obj)] *)
Definition join (sep : string) (obj : pyval) : result string :=
  match obj with
  | PyList l => ss <~ join_items 0 l ;; Ok (String.concat sep ss)
  | PyDict d => ss <~ join_items 0 (map fst d) ;; Ok (String.concat sep ss)
  | PyStr s => Ok (String.concat sep (chars s))
  | _ => Raise (TypeError "can only join an iterable")
  end.

(** A list comprehension whose element expression may raise. *)
Fixpoint comprehension {A B} (f : A -> result B) (l : list A) : result (list B) :=
  match l with
  | [] => Ok []
  | a :: rest =>
      b <~ f a ;;
      bs <~ comprehension f rest ;;
      Ok (b :: bs)
  end.

(** The generator [stream_chunks] of [refine_response_with_ollama], run to
    its end: the chunks it yields, and whether it ended normally. *)
Fixpoint stream_chunks (lines : list string) : list string * bool :=
  match lines with
  | [] => ([], true)
  | chunk :: rest =>
      if nonempty chunk then
        match decode_utf8 chunk with
        | Some content =>
            let '(out, ok) := stream_chunks rest in
            ((content ++ nl) :: out, ok)
        | None => ([], false)
        end
      else stream_chunks rest
  end.

Section Handler.

Context {W : Type} (C : collaborators W).

(** [requests.post] / [requests.get]: the call is logged with its answer. *)
Definition request (req : http_request) : M W http_response :=
  fun w => let '(r, w') := send C req w in (r, w', [EvHttp req r]).

Definition check_status (r : http_response) : result unit :=
  match raise_for_status r with
  | Some e => Raise e
  | None => Ok tt
  end.

(** [profanity.contains_profanity(text)] *)
Definition moderation (text : string) : M W bool :=
  fun w => let b := contains_profanity C text in (Ok b, w, [EvModeration text b]).

(** [str(v)], and with it [format(v)] inside an f-string. *)
Definition py_str (v : pyval) : string :=
  match v with
  | PyStr s => s
  | _ => py_repr C v
  end.

(** [eval(x)] *)
Definition eval (x : pyval) : result pyval :=
  match x with
  | PyStr s => py_eval C s
  | _ => Raise (TypeError "eval() arg 1 must be a string, bytes or code object")
  end.

Definition moderation_notice : pyval :=
  PyDict [(PyStr "response",
           PyStr "The Book Search service is moderated, and does now allow for profanity")].

Definition respond_with_profanity_message : response :=
  {| status := 200;
     content := Stream "application/json" [json_dumps C moderation_notice ++ nl] true |}.

Definition generation_prompt (user_query : string) : string :=
  "Based on the user's query: '" ++ user_query ++ "', "
  ++ "construct a JSON object to query Open Library. Extract up to 6 essential keywords. "
  ++ "limit by default is 3 unless the user asks for a different amount of results" ++ nl
  ++ "options for query_type are 'q', 'author', 'title'" ++ nl
  ++ "The format should be:" ++ nl
  ++ "{" ++ nl
  ++ "  'query_type': 'q'," ++ nl
  ++ "  'query_value': 'keywords'," ++ nl
  ++ "  'limit': '3'," ++ nl
  ++ "}" ++ nl.

Definition generation_payload (user_query : string) : pyval :=
  PyDict [(PyStr "model", PyStr "llama3.2");
          (PyStr "prompt", PyStr (generation_prompt user_query));
          (PyStr "format", PyStr "json");
          (PyStr "stream", PyBool false)].

Definition generate_query_with_ollama (user_query : string) : M W pyval :=
  try (
    response <- request (Post OLLAMA_URL (generation_payload user_query) false) ;;
    lift (check_status response) ;;
    data <- lift (json_body response) ;;
    text <- lift (py_get data "response" (PyDict [])) ;;
    lift (eval text)
  ) except e =>
    ret (error_payload ("Ollama generation failed: " ++ exn_str e)).

Definition search_books_with_openlibrary (query_config : pyval) : M W pyval :=
  try (
    query_type <- lift (py_get query_config "query_type" (PyStr "q")) ;;
    query_value <- lift (py_get query_config "query_value" (PyStr EmptyString)) ;;
    limit <- lift (py_get query_config "limit" (PyStr "3")) ;;
    params <- lift (dict_display2 query_type query_value limit limit) ;;
    response <- request (Get OPEN_LIBRARY_URL params) ;;
    lift (check_status response) ;;
    books <- lift (json_body response) ;;
    ret books
  ) except e =>
    ret (error_payload ("Open Library API failed: " ++ exn_str e)).

(** One element of the list comprehension in [refine_response_with_ollama]. *)
Definition book_line (book : pyval) : result string :=
  title <~ py_get book "title" (PyStr "Unknown Title") ;;
  author_name <~ py_get book "author_name" (PyList [PyStr "Unknown Author"]) ;;
  authors <~ join ", " author_name ;;
  Ok (bullet ++ " '" ++ py_str title ++ "' by " ++ authors).

Definition book_details (books : pyval) : result string :=
  docs <~ py_get books "docs" (PyList []) ;;
  first <~ slice3 docs ;;
  lines <~ comprehension book_line first ;;
  Ok (String.concat nl lines).

Definition refinement_prompt (user_query details : string) : string :=
  "The user asked: '" ++ user_query ++ "'. Based on the following books:" ++ nl
  ++ details ++ nl
  ++ "Write an engaging intro, include the book details as bullets, and a happy outro. Use plain text.".

Definition refinement_payload (user_query details : string) : pyval :=
  PyDict [(PyStr "model", PyStr "llama3.2");
          (PyStr "prompt", PyStr (refinement_prompt user_query details));
          (PyStr "stream", PyBool true)].

Definition refine_response_with_ollama (user_query : string) (books : pyval)
  : M W response :=
  try (
    details <- lift (book_details books) ;;
    response <- request (Post OLLAMA_URL (refinement_payload user_query details) true) ;;
    lift (check_status response) ;;
    let '(chunks, ok) := stream_chunks (iter_lines response) in
    ret {| status := 200; content := Stream "text/plain" chunks ok |}
  ) except e =>
    ret (jsonify (error_payload ("Refinement failed: " ++ exn_str e)) 500).

(** [v.strip()]: a method of [str] only. *)
Definition str_strip (v : pyval) : result string :=
  match v with
  | PyStr s => Ok (strip s)
  | _ => Raise (no_attribute v "strip")
  end.

(** The test of line 18, with the short-circuit of [or]:
    [not data or "query" not in data or not isinstance(data["query"], str)
     or not data["query"].strip()] *)
Definition invalid_input (data : pyval) : result bool :=
  if negb (truthy data) then Ok true else
  present <~ py_in "query" data ;;
  if negb present then Ok true else
  q <~ py_getitem data "query" ;;
  if negb (is_str q) then Ok true else
  q' <~ py_getitem data "query" ;;
  stripped <~ str_strip q' ;;
  Ok (negb (truthy (PyStr stripped))).

Definition invalid_input_message : string :=
  "Invalid input. 'query' must be a non-empty string.".

(** Lines 33-36: the second generation.  [inl] is the early [return] of
    line 36, [inr] the rebound [query_config].  [logger] is read on line 35
    before anything is returned. *)
Definition retry_generation (user_query : string) : M W (response + pyval) :=
  query_config <- generate_query_with_ollama user_query ;;
  if has_error query_config then
    lift (read_global "logger") ;;
    ret (inl (jsonify query_config 500))
  else ret (inr query_config).

(** Lines 38-49.  [refine_response_with_ollama] returns a [Response] or a
    tuple, never a dict, so the test of line 46 is false. *)
Definition search_and_refine (user_query : string) (query_config : pyval)
  : M W response :=
  books_data <- search_books_with_openlibrary query_config ;;
  if has_error books_data then ret (jsonify books_data 500) else
  refined_response <- refine_response_with_ollama user_query books_data ;;
  ret refined_response.

(** Lines 23-49, once [user_query] is known. *)
Definition answer_query (user_query : string) : M W response :=
  flagged <- moderation user_query ;;
  if flagged then ret respond_with_profanity_message else
  query_config <- generate_query_with_ollama user_query ;;
  if has_error query_config then ret (jsonify query_config 500) else
  valid <- lift (validate_query_config query_config) ;;
  retried <- (if negb valid then retry_generation user_query
              else ret (inr query_config)) ;;
  match retried with
  | inl early => ret early
  | inr query_config => search_and_refine user_query query_config
  end.

(** The view function; [get_json] is what [request.get_json()] does on the
    incoming request: the parsed body, or an exception. *)
Definition search_books (get_json : result pyval) : M W response :=
  try (
    data <- lift get_json ;;
    invalid <- lift (invalid_input data) ;;
    if invalid then ret (jsonify (error_payload invalid_input_message) 400) else
    q <- lift (py_getitem data "query") ;;
    user_query <- lift (str_strip q) ;;
    answer_query user_query
  ) except e =>
    ret (jsonify (error_payload "An unexpected error occurred.") 500).

(** Lines 23-49 under the [try] of line 15. *)
Definition guarded_answer (user_query : string) : M W response :=
  try answer_query user_query
  except e => ret (jsonify (error_payload "An unexpected error occurred.") 500).

(** *** The pure part of each helper

    What each helper makes of the answer to its one outbound call. *)

Definition generation_request (user_query : string) : http_request :=
  Post OLLAMA_URL (generation_payload user_query) false.

Definition generation_value (reply : result http_response) : pyval :=
  match (response <~ reply ;;
         _ <~ check_status response ;;
         data <~ json_body response ;;
         text <~ py_get data "response" (PyDict []) ;;
         eval text) with
  | Ok v => v
  | Raise e => error_payload ("Ollama generation failed: " ++ exn_str e)
  end.

Definition search_params (query_config : pyval) : result pyval :=
  query_type <~ py_get query_config "query_type" (PyStr "q") ;;
  query_value <~ py_get query_config "query_value" (PyStr EmptyString) ;;
  limit <~ py_get query_config "limit" (PyStr "3") ;;
  dict_display2 query_type query_value limit limit.

Definition search_value (reply : result http_response) : pyval :=
  match (response <~ reply ;;
         _ <~ check_status response ;;
         json_body response) with
  | Ok books => books
  | Raise e => error_payload ("Open Library API failed: " ++ exn_str e)
  end.

Definition refinement_request (user_query details : string) : http_request :=
  Post OLLAMA_URL (refinement_payload user_query details) true.

Definition refinement_response (reply : result http_response) : response :=
  match (response <~ reply ;;
         _ <~ check_status response ;;
         Ok response) with
  | Ok response =>
      {| status := 200;
         content := Stream "text/plain"
                      (fst (stream_chunks (iter_lines response)))
                      (snd (stream_chunks (iter_lines response))) |}
  | Raise e => jsonify (error_payload ("Refinement failed: " ++ exn_str e)) 500
  end.

End Handler.

(** ** Reading a trace *)

Definition is_generation_call (ev : event) : bool :=
  match ev with
  | EvHttp (Post _ _ false) _ => true
  | _ => false
  end.

Definition is_refinement_call (ev : event) : bool :=
  match ev with
  | EvHttp (Post _ _ true) _ => true
  | _ => false
  end.

Definition is_search_call (ev : event) : bool :=
  match ev with
  | EvHttp (Get _ _) _ => true
  | _ => false
  end.

Definition calls (p : event -> bool) (t : list event) : nat :=
  length (filter p t).

(** The call raised, or the answer carries an error status. *)
Definition transport_failure (reply : result http_response) : option exn :=
  match reply with
  | Raise e => Some e
  | Ok r => raise_for_status r
  end.

Definition trace_of {W A} (run : result A * W * list event) : list event :=
  snd run.

Definition value_of {W A} (run : result A * W * list event) : result A :=
  fst (fst run).

(** [after t run]: the run [run], made after the calls of [t]. *)
Definition after {W A} (t : list event) (run : result A * W * list event)
  : result A * W * list event :=
  let '(r, w, t') := run in (r, w, (t ++ t')%list).

Definition unexpected : response :=
  jsonify (error_payload "An unexpected error occurred.") 500.

(** ** Documents, as the spec describes them *)

(** A document record of the spec's BookResult: both fields are optional. *)
Record doc : Type := {
  title : option string;
  author_name : option (list string)
}.

(** The Python dict [book] carries the two fields of [b]; it may carry
    any other field besides. *)
Definition represents (book : pyval) (b : doc) : Prop :=
  exists e,
    book = PyDict e
    /\ dict_lookup e (PyStr "title") = option_map PyStr (title b)
    /\ dict_lookup e (PyStr "author_name")
       = option_map (fun l => PyList (map PyStr l)) (author_name b).

(** The bullet the spec asks for: the title and the comma-joined authors,
    with "Unknown Title" and "Unknown Author" for an absent field. *)
Definition rendered_book (b : doc) : string :=
  bullet ++ " '"
  ++ match title b with Some t => t | None => "Unknown Title" end
  ++ "' by "
  ++ String.concat ", "
       match author_name b with Some l => l | None => ["Unknown Author"] end.

(** ** A scripted world

    The world is the list of answers still to come; a call past the end of
    the script is refused.  Used for the concrete runs below. *)

Definition script := list (result http_response).

Definition connection_refused : exn := Exn "ConnectionError" "Connection refused".

Definition scripted_send (req : http_request) (w : script)
  : result http_response * script :=
  match w with
  | [] => (Raise connection_refused, [])
  | r :: rest => (r, rest)
  end.

(** A reply whose [json()] is [v]. *)
Definition json_reply (v : pyval) : result http_response :=
  Ok {| raise_for_status := None; json_body := Ok v; iter_lines := [] |}.

(** A streamed reply. *)
Definition lines_reply (ls : list string) : result http_response :=
  Ok {| raise_for_status := None;
        json_body := Raise (Exn "JSONDecodeError" "Expecting value");
        iter_lines := ls |}.

(** The generation reply carrying [text] as the model's answer. *)
Definition generation_reply (text : string) : result http_response :=
  json_reply (PyDict [(PyStr "response", PyStr text)]).

Definition q_python : entries :=
  [(PyStr "query_type", PyStr "q");
   (PyStr "query_value", PyStr "python");
   (PyStr "limit", PyStr "3")].

Definition config_q_python : pyval := PyDict q_python.

Definition config_limit_only : pyval :=
  PyDict [(PyStr "limit", PyStr "3")].

(** A stand-in for [eval] that knows the literals used below. *)
Definition toy_eval (text : string) : result pyval :=
  if String.eqb text "{'query_type': 'q', 'query_value': 'python', 'limit': '3'}"
  then Ok config_q_python
  else if String.eqb text "{'limit': '3'}"
  then Ok config_limit_only
  else if String.eqb text "{'error': 'no idea'}"
  then Ok (error_payload "no idea")
  else Raise (Exn "SyntaxError" "invalid syntax").

Definition toy_profanity (text : string) : bool := substring "shitty" text.

Definition dq : string := String "034"%char EmptyString.

(** A stand-in for [json.dumps], right on one-entry objects of plain text. *)
Definition toy_dumps (v : pyval) : string :=
  match v with
  | PyDict [(PyStr k, PyStr s)] =>
      "{" ++ dq ++ k ++ dq ++ ": " ++ dq ++ s ++ dq ++ "}"
  | _ => "null"
  end.

Definition toy_repr (v : pyval) : string :=
  match v with
  | PyNone => "None"
  | PyBool true => "True"
  | PyBool false => "False"
  | _ => "..."
  end.

Definition toy : collaborators script := {|
  contains_profanity := toy_profanity;
  send := scripted_send;
  py_eval := toy_eval;
  json_dumps := toy_dumps;
  py_repr := toy_repr
|}.

Definition body_with_query (q : string) : result pyval :=
  Ok (PyDict [(PyStr "query", PyStr q)]).


Definition rude_body : entries :=
  [(PyStr "query", PyStr " This is a shitty query ")].

Definition python_body : entries := [(PyStr "query", PyStr "python books")].

Definition good_answer : string :=
  "{'query_type': 'q', 'query_value': 'python', 'limit': '3'}".

(** The first generation lacks the required keys, the retry is refused. *)
Definition retry_refused : script :=
  [generation_reply "{'limit': '3'}"; Raise connection_refused].

(** The first generation is fine, the search call is refused. *)
Definition search_refused : script :=
  [generation_reply good_answer; Raise connection_refused].

Definition book_a : pyval :=
  PyDict [(PyStr "key", PyStr "/works/OL1W");
          (PyStr "title", PyStr "Book A");
          (PyStr "author_name", PyList [PyStr "Author A"; PyStr "Author B"])].


Definition four_docs : entries :=
  [(PyStr "numFound", PyInt 4);
   (PyStr "docs",
    PyList [book_a; PyDict [(PyStr "title", PyStr "Book B")]; PyDict [];
            PyInt 7])].

(** The first generation lacks the required keys and the retry is answered
    with an object that lacks them too, but has an "error" key. *)
Definition retry_answers_error : script :=
  [generation_reply "{'limit': '3'}"; generation_reply "{'error': 'no idea'}";
   json_reply (PyDict four_docs); lines_reply ["Chunk1"; "Chunk2"]].

(** Both generations lack the required keys; search and refinement answer. *)
Definition still_invalid : script :=
  [generation_reply "{'limit': '3'}"; generation_reply "{'limit': '3'}";
   json_reply (PyDict four_docs); lines_reply ["Chunk1"; "Chunk2"]].

(** ** More readings of a run *)

(** The [try] body of [generate_query_with_ollama], applied to the answer
    to its call: the evaluated text of the model, or the first exception. *)
Definition generation_outcome {W} (C : collaborators W)
           (reply : result http_response) : result pyval :=
  response <~ reply ;;
  _ <~ check_status response ;;
  data <~ json_body response ;;
  text <~ py_get data "response" (PyDict []) ;;
  eval C text.

(** The values on which [key in v] is defined. *)
Definition iterable (v : pyval) : bool :=
  match v with
  | PyStr _ | PyList _ | PyDict _ => true
  | _ => false
  end.

(** An HTTP call to one of the two URLs of the module, with the method the
    module uses for it. *)
Definition known_endpoint (ev : event) : bool :=
  match ev with
  | EvModeration _ _ => false
  | EvHttp (Post url _ _) _ => String.eqb url OLLAMA_URL
  | EvHttp (Get url _) _ => String.eqb url OPEN_LIBRARY_URL
  end.

Definition invalid_input_response : response :=
  jsonify (error_payload invalid_input_message) 400.

(** The model answers with a bare number. *)
Definition toy_eval_number (text : string) : result pyval :=
  if String.eqb text "3" then Ok (PyInt 3) else toy_eval text.

Definition toy_number : collaborators script := {|
  contains_profanity := toy_profanity;
  send := scripted_send;
  py_eval := toy_eval_number;
  json_dumps := toy_dumps;
  py_repr := toy_repr
|}.

(** A search answer that is an error object of the search service. *)
Definition search_says_error : pyval :=
  PyDict [(PyStr "error", PyStr "internal error"); (PyStr "status", PyInt 500)].

(** An upstream line that is not UTF-8. *)
Definition bad_line : string := String "255"%char "x".

(** The whole pipeline answers. *)
Definition all_answer : script :=
  [generation_reply good_answer; json_reply (PyDict four_docs);
   lines_reply ["Chunk1"; "Chunk2"]].

(** The retry gives a usable config. *)
Definition retry_succeeds : script :=
  [generation_reply "{'limit': '3'}"; generation_reply good_answer;
   json_reply (PyDict four_docs); lines_reply ["Chunk1"; "Chunk2"]].

(** * Properties *)

(** ** Dicts *)

Lemma key_eqb_str (k : pyval) (s : string) :
  key_eqb k (PyStr s) = true <-> k = PyStr s.
Proof.
  destruct k; simpl; split; intro H; try discriminate.
  - apply String.eqb_eq in H. now subst.
  - injection H as ->. apply String.eqb_refl.
Qed.

Lemma dict_lookup_set_other (d : entries) (k v : pyval) (s : string) :
  key_eqb k (PyStr s) = false ->
  dict_lookup (dict_set d k v) (PyStr s) = dict_lookup d (PyStr s).
Proof.
  intro Hk. induction d as [|[k' v'] d IH]; simpl.
  - now rewrite Hk.
  - destruct (key_eqb k' k) eqn:E; simpl.
    + destruct (key_eqb k' (PyStr s)) eqn:E'; [|reflexivity].
      apply key_eqb_str in E'. subst k'.
      destruct k; simpl in *; try discriminate.
      rewrite String.eqb_sym in Hk. congruence.
    + now rewrite IH.
Qed.

Lemma dict_lookup_del_other (d : entries) (k : pyval) (s : string) :
  key_eqb k (PyStr s) = false ->
  dict_lookup (dict_del d k) (PyStr s) = dict_lookup d (PyStr s).
Proof.
  intro Hk. induction d as [|[k' v'] d IH]; simpl; [reflexivity|].
  destruct (key_eqb k' k) eqn:E; simpl.
  - destruct (key_eqb k' (PyStr s)) eqn:E'; [|reflexivity].
    apply key_eqb_str in E'. subst k'.
    destruct k; simpl in *; try discriminate.
    rewrite String.eqb_sym in Hk. congruence.
  - now rewrite IH.
Qed.

Lemma dict_lookup_set_same (d : entries) (s : string) (v : pyval) :
  dict_lookup (dict_set d (PyStr s) v) (PyStr s) = Some v.
Proof.
  induction d as [|[k' v'] d IH]; simpl.
  - now rewrite String.eqb_refl.
  - destruct (key_eqb k' (PyStr s)) eqn:E; simpl; now rewrite E.
Qed.

(** ** Runs of the helpers *)

Section Runs.

Context {W : Type} (C : collaborators W).

Lemma bind_lift {A B} (r : result A) (f : A -> M W B) (w : W) :
  bind (lift r) f w =
  match r with
  | Ok a => f a w
  | Raise e => (Raise e, w, [])
  end.
Proof.
  unfold bind, lift. destruct r; [|reflexivity].
  destruct (f a w) as [[r' w'] t]. reflexivity.
Qed.

(** The generation helper never raises and makes exactly one call. *)
Lemma generate_run (q : string) (w : W) :
  generate_query_with_ollama C q w =
  (Ok (generation_value C (fst (send C (generation_request q) w))),
   snd (send C (generation_request q) w),
   [EvHttp (generation_request q) (fst (send C (generation_request q) w))]).
Proof.
  unfold generate_query_with_ollama, generation_value, generation_request,
    try_except, bind, request, lift, ret, rbind.
  destruct (send C _ w) as [[r|e] w1]; simpl; [|reflexivity].
  destruct (check_status r); [|reflexivity].
  destruct (json_body r) as [data|]; [|reflexivity].
  destruct (py_get data "response" (PyDict [])) as [text|]; [|reflexivity].
  destruct (eval C text); reflexivity.
Qed.

(** The search helper never raises; it makes one call when the parameters
    could be built and none otherwise. *)
Lemma search_run (qc : pyval) (w : W) :
  search_books_with_openlibrary C qc w =
  match search_params qc with
  | Ok params =>
      (Ok (search_value (fst (send C (Get OPEN_LIBRARY_URL params) w))),
       snd (send C (Get OPEN_LIBRARY_URL params) w),
       [EvHttp (Get OPEN_LIBRARY_URL params)
               (fst (send C (Get OPEN_LIBRARY_URL params) w))])
  | Raise e =>
      (Ok (error_payload ("Open Library API failed: " ++ exn_str e)), w, [])
  end.
Proof.
  unfold search_books_with_openlibrary, search_params, search_value,
    try_except, bind, request, lift, ret, rbind.
  destruct (py_get qc "query_type" (PyStr "q")) as [qt|]; [|reflexivity].
  destruct (py_get qc "query_value" (PyStr EmptyString)) as [qv|]; [|reflexivity].
  destruct (py_get qc "limit" (PyStr "3")) as [lim|]; [|reflexivity].
  destruct (dict_display2 qt qv lim lim) as [params|]; [|reflexivity].
  destruct (send C _ w) as [[r|e] w1]; simpl; [|reflexivity].
  destruct (check_status r); [|reflexivity].
  destruct (json_body r); reflexivity.
Qed.

(** The refinement helper never raises; it makes one call when the book
    list could be rendered and none otherwise. *)
Lemma refine_run (q : string) (books : pyval) (w : W) :
  refine_response_with_ollama C q books w =
  match book_details C books with
  | Ok details =>
      (Ok (refinement_response (fst (send C (refinement_request q details) w))),
       snd (send C (refinement_request q details) w),
       [EvHttp (refinement_request q details)
               (fst (send C (refinement_request q details) w))])
  | Raise e =>
      (Ok (jsonify (error_payload ("Refinement failed: " ++ exn_str e)) 500), w, [])
  end.
Proof.
  unfold refine_response_with_ollama, refinement_response, refinement_request,
    try_except, bind, request, lift, ret, rbind.
  destruct (book_details C books) as [details|]; [|reflexivity].
  destruct (send C _ w) as [[r|e] w1]; simpl; [|reflexivity].
  destruct (check_status r); [|reflexivity].
  destruct (stream_chunks (iter_lines r)); reflexivity.
Qed.

Lemma has_error_payload (m : string) : has_error (error_payload m) = true.
Proof. reflexivity. Qed.

Lemma search_value_failure (reply : result http_response) (e : exn) :
  transport_failure reply = Some e ->
  search_value reply = error_payload ("Open Library API failed: " ++ exn_str e).
Proof.
  unfold transport_failure, search_value, check_status, rbind.
  destruct reply as [r|e']; intro H.
  - now rewrite H.
  - now injection H as ->.
Qed.

Lemma generation_value_failure (reply : result http_response) (e : exn) :
  transport_failure reply = Some e ->
  generation_value C reply = error_payload ("Ollama generation failed: " ++ exn_str e).
Proof.
  unfold transport_failure, generation_value, check_status, rbind.
  destruct reply as [r|e']; intro H.
  - now rewrite H.
  - now injection H as ->.
Qed.

(** Lines 38-49 never raise and never call the generation service. *)
Lemma search_and_refine_total (q : string) (qc : pyval) (w : W) :
  exists resp w' t,
    search_and_refine C q qc w = (Ok resp, w', t)
    /\ calls is_generation_call t = 0.
Proof.
  unfold search_and_refine, bind, ret.
  rewrite search_run.
  destruct (search_params qc) as [params|e].
  - destruct (has_error (search_value _)).
    + do 3 eexists. split; reflexivity.
    + rewrite refine_run. destruct (book_details C _).
      * do 3 eexists. split; reflexivity.
      * do 3 eexists. split; reflexivity.
  - rewrite has_error_payload. do 3 eexists. split; reflexivity.
Qed.

(** A failed search call ends lines 38-49 with the search error, before the
    refinement helper is reached. *)
Lemma search_and_refine_failure (q : string) (qc : pyval) (w : W)
      (url : string) (params : pyval) (reply : result http_response) (e : exn) :
  In (EvHttp (Get url params) reply) (trace_of (search_and_refine C q qc w)) ->
  transport_failure reply = Some e ->
  value_of (search_and_refine C q qc w)
  = Ok (jsonify (error_payload ("Open Library API failed: " ++ exn_str e)) 500)
  /\ calls is_refinement_call (trace_of (search_and_refine C q qc w)) = 0.
Proof.
  unfold search_and_refine, bind, ret, trace_of, value_of.
  rewrite search_run.
  destruct (search_params qc) as [ps|e0].
  - destruct (has_error (search_value _)) eqn:Herr; simpl.
    + intros [Hin|[]] Hfail. injection Hin as _ _ <-.
      rewrite (search_value_failure _ _ Hfail). split; reflexivity.
    + rewrite refine_run.
      destruct (book_details C _); simpl; intros [Hin|Hin] Hfail.
      * injection Hin as _ _ <-.
        rewrite (search_value_failure _ _ Hfail) in Herr. discriminate.
      * destruct Hin as [Hin|[]]. discriminate.
      * injection Hin as _ _ <-.
        rewrite (search_value_failure _ _ Hfail) in Herr. discriminate.
      * destruct Hin.
  - rewrite has_error_payload. simpl. intros [].
Qed.

(** The run of lines 23-49, case by case. *)
Lemma answer_query_run (q : string) (w : W) :
  let first := send C (generation_request q) w in
  let second := send C (generation_request q) (snd first) in
  let v1 := generation_value C (fst first) in
  let v2 := generation_value C (fst second) in
  let gen1 := EvHttp (generation_request q) (fst first) in
  let gen2 := EvHttp (generation_request q) (fst second) in
  answer_query C q w =
  if contains_profanity C q
  then (Ok (respond_with_profanity_message C), w, [EvModeration q true])
  else if has_error v1
  then (Ok (jsonify v1 500), snd first, [EvModeration q false; gen1])
  else match validate_query_config v1 with
       | Raise e => (Raise e, snd first, [EvModeration q false; gen1])
       | Ok true =>
           after [EvModeration q false; gen1] (search_and_refine C q v1 (snd first))
       | Ok false =>
           if has_error v2
           then (Raise (NameError "name 'logger' is not defined"), snd second,
                 [EvModeration q false; gen1; gen2])
           else after [EvModeration q false; gen1; gen2]
                      (search_and_refine C q v2 (snd second))
       end.
Proof.
  cbv zeta. unfold answer_query, moderation, bind at 1.
  destruct (contains_profanity C q); [reflexivity|].
  unfold bind at 1. rewrite generate_run.
  destruct (has_error (generation_value C _)) eqn:H1; [reflexivity|].
  rewrite bind_lift.
  destruct (validate_query_config (generation_value C _)) as [[|]|e];
    [| |reflexivity].
  - simpl negb. cbv iota. unfold bind at 1, ret at 1, after.
    destruct (search_and_refine C q _ _) as [[r w'] t]. reflexivity.
  - simpl negb. cbv iota. unfold bind at 1, retry_generation.
    unfold bind at 1. rewrite generate_run.
    destruct (has_error (generation_value C (fst (send C _ (snd _))))) eqn:H2.
    + reflexivity.
    + unfold ret at 1, after.
      destruct (search_and_refine C q _ _) as [[r w'] t]. reflexivity.
Qed.

End Runs.

(** ** The endpoint *)

Section Endpoint.

Context {W : Type} (C : collaborators W).

(** Either the handler answers before any collaborator is called, or it
    runs lines 23-49 on some query under the catch-all of line 51. *)
Lemma search_books_shape (get_json : result pyval) (w : W) :
  (exists resp, search_books C get_json w = (Ok resp, w, []))
  \/ (exists q, search_books C get_json w = guarded_answer C q w).
Proof.
  unfold search_books, guarded_answer, try_except.
  rewrite bind_lift. destruct get_json as [data|e]; [|left; eexists; reflexivity].
  rewrite bind_lift.
  destruct (invalid_input data) as [[|]|e]; try (left; eexists; reflexivity).
  rewrite bind_lift.
  destruct (py_getitem data "query") as [qv|e]; [|left; eexists; reflexivity].
  rewrite bind_lift.
  destruct (str_strip qv) as [q|e]; [|left; eexists; reflexivity].
  right. exists q. reflexivity.
Qed.

(** A body with a non-blank string under "query" passes line 18. *)
Lemma valid_query_accepted (d : entries) (q : string) (w : W) :
  dict_lookup d (PyStr "query") = Some (PyStr q) ->
  strip q <> EmptyString ->
  search_books C (Ok (PyDict d)) w = guarded_answer C (strip q) w.
Proof.
  intros Hq Hne.
  unfold search_books, guarded_answer, try_except.
  rewrite bind_lift, bind_lift.
  assert (Hin : invalid_input (PyDict d) = Ok false).
  { unfold invalid_input. destruct d as [|p d']; [discriminate|].
    simpl truthy. simpl negb. cbv iota.
    unfold py_in, dict_has, py_getitem, rbind. rewrite Hq. simpl.
    destruct (strip q); [congruence|reflexivity]. }
  rewrite Hin, bind_lift. unfold py_getitem. rewrite Hq, bind_lift. simpl.
  reflexivity.
Qed.

(** The catch-all leaves a normal answer alone. *)
Lemma guarded_answer_ok (q : string) (w w' : W) (resp : response) (t : list event) :
  answer_query C q w = (Ok resp, w', t) ->
  guarded_answer C q w = (Ok resp, w', t).
Proof. unfold guarded_answer, try_except. now intros ->. Qed.

(** The catch-all turns any exception into the generic answer. *)
Lemma guarded_answer_raise (q : string) (w w' : W) (e : exn) (t : list event) :
  answer_query C q w = (Raise e, w', t) ->
  guarded_answer C q w = (Ok unexpected, w', t).
Proof.
  unfold guarded_answer, try_except, ret. intros ->.
  now rewrite app_nil_r.
Qed.

(** The handler always answers: whatever the request and whatever the
    collaborators do, [search_books] returns a response. *)
Lemma search_books_total (get_json : result pyval) (w : W) :
  exists resp w' t, search_books C get_json w = (Ok resp, w', t).
Proof.
  unfold search_books, try_except.
  destruct (bind _ _ w) as [[[resp|e] w'] t].
  - do 3 eexists. reflexivity.
  - do 3 eexists. reflexivity.
Qed.


(** C4: a valid query that the moderation filter flags is answered with
    status 200 and one streamed chunk, the serialised moderation notice
    followed by a newline; the moderation filter is the only collaborator
    called, so no generation, search or refinement request is made. *)
Theorem flagged_query_gets_notice (d : entries) (q : string) (w : W) :
  dict_lookup d (PyStr "query") = Some (PyStr q) ->
  strip q <> EmptyString ->
  contains_profanity C (strip q) = true ->
  search_books C (Ok (PyDict d)) w
  = (Ok {| status := 200;
           content := Stream "application/json"
             [json_dumps C (PyDict
                [(PyStr "response",
                  PyStr "The Book Search service is moderated, and does now allow for profanity")])
              ++ nl] true |},
     w, [EvModeration (strip q) true]).
Proof.
  intros Hq Hne Hflag.
  rewrite (valid_query_accepted d q w Hq Hne).
  apply guarded_answer_ok.
  pose proof (answer_query_run C (strip q) w) as Hrun. cbv zeta in Hrun.
  rewrite Hrun, Hflag. reflexivity.
Qed.

(** Where lines 38-49 are reached, the catch-all has nothing to catch. *)
Lemma guarded_answer_after (q q' : string) (qc : pyval) (w w1 : W) (pre : list event) :
  answer_query C q w = after pre (search_and_refine C q' qc w1) ->
  guarded_answer C q w = after pre (search_and_refine C q' qc w1).
Proof.
  destruct (search_and_refine_total C q' qc w1) as (resp & w' & t & Hrun & _).
  rewrite Hrun. unfold after. apply guarded_answer_ok.
Qed.

Lemma calls_after {A} (p : event -> bool) (pre : list event)
      (run : result A * W * list event) :
  calls p (trace_of (after pre run)) = calls p pre + calls p (trace_of run).
Proof.
  destruct run as [[r w] t]. unfold after, trace_of, calls. simpl.
  now rewrite filter_app, length_app.
Qed.

Lemma value_after {A} (pre : list event) (run : result A * W * list event) :
  value_of (after pre run) = value_of run.
Proof. now destruct run as [[r w] t]. Qed.

Lemma in_trace_after {A} (ev : event) (pre : list event)
      (run : result A * W * list event) :
  In ev (trace_of (after pre run)) -> In ev pre \/ In ev (trace_of run).
Proof.
  destruct run as [[r w] t]. unfold after, trace_of. simpl. apply in_app_or.
Qed.

(** C2 (what the code does): when the first generation returns a value
    that is not an error payload and lacks a required key, and the retry
    fails at the transport level, the endpoint answers 500 with the generic
    payload of the catch-all, not with the generation error: reading the
    unbound name [logger] on line 35 raises before line 36 returns. *)
Theorem failed_retry_is_masked (d : entries) (q : string) (w : W) (e : exn) :
  dict_lookup d (PyStr "query") = Some (PyStr q) ->
  strip q <> EmptyString ->
  contains_profanity C (strip q) = false ->
  let first := send C (generation_request (strip q)) w in
  let second := send C (generation_request (strip q)) (snd first) in
  has_error (generation_value C (fst first)) = false ->
  validate_query_config (generation_value C (fst first)) = Ok false ->
  transport_failure (fst second) = Some e ->
  search_books C (Ok (PyDict d)) w
  = (Ok {| status := 500;
           content := Json (PyDict
             [(PyStr "error", PyStr "An unexpected error occurred.")]) |},
     snd second,
     [EvModeration (strip q) false;
      EvHttp (generation_request (strip q)) (fst first);
      EvHttp (generation_request (strip q)) (fst second)])
  /\ value_of (search_books C (Ok (PyDict d)) w)
     <> Ok (jsonify (error_payload ("Ollama generation failed: " ++ exn_str e)) 500).
Proof.
  intros Hq Hne Hclean first second H1 Hval Hfail.
  assert (Hrun : search_books C (Ok (PyDict d)) w
                 = (Ok unexpected, snd second,
                    [EvModeration (strip q) false;
                     EvHttp (generation_request (strip q)) (fst first);
                     EvHttp (generation_request (strip q)) (fst second)])).
  { rewrite (valid_query_accepted d q w Hq Hne).
    eapply guarded_answer_raise.
    pose proof (answer_query_run C (strip q) w) as Hrun. cbv zeta in Hrun.
    rewrite Hrun, Hclean. fold first. rewrite H1, Hval. fold second.
    rewrite (generation_value_failure C _ _ Hfail), has_error_payload.
    reflexivity. }
  split; [exact Hrun|].
  rewrite Hrun. unfold value_of, unexpected, jsonify, error_payload. simpl.
  intro Heq. injection Heq as Heq. discriminate.
Qed.

(** C6, amended: in every run the generation service is called at most
    twice; a second call is made only after a first result that lacks a
    required key; and when the retry returns a value without an "error" key,
    be it still without the required keys, the run goes on with lines 38-49
    on exactly that value: no third generation call, no error raised. *)
Theorem generation_attempted_at_most_twice (get_json : result pyval) (w : W) :
  calls is_generation_call (trace_of (search_books C get_json w)) <= 2
  /\ (calls is_generation_call (trace_of (search_books C get_json w)) = 2 ->
      exists q,
        let first := send C (generation_request q) w in
        let second := send C (generation_request q) (snd first) in
        let v1 := generation_value C (fst first) in
        let v2 := generation_value C (fst second) in
        let attempts := [EvModeration q false;
                         EvHttp (generation_request q) (fst first);
                         EvHttp (generation_request q) (fst second)] in
        firstn 3 (trace_of (search_books C get_json w)) = attempts
        /\ validate_query_config v1 = Ok false
        /\ (has_error v2 = false ->
            search_books C get_json w
            = after attempts (search_and_refine C q v2 (snd second))
            /\ calls is_generation_call
                 (trace_of (search_and_refine C q v2 (snd second))) = 0)).
Proof.
  destruct (search_books_shape get_json w) as [[resp ->]|[q ->]].
  - unfold trace_of, calls. simpl. split; [lia|discriminate].
  - pose proof (answer_query_run C q w) as Hrun. cbv zeta in Hrun.
    destruct (contains_profanity C q).
    { rewrite (guarded_answer_ok _ _ _ _ _ Hrun).
      unfold trace_of, calls. simpl. split; [lia|discriminate]. }
    destruct (has_error (generation_value C (fst (send C (generation_request q) w)))).
    { rewrite (guarded_answer_ok _ _ _ _ _ Hrun).
      unfold trace_of, calls. simpl. split; [lia|discriminate]. }
    destruct (validate_query_config _) as [[|]|e] eqn:Hval.
    + rewrite (guarded_answer_after _ _ _ _ _ _ Hrun), calls_after.
      destruct (search_and_refine_total C q
                  (generation_value C (fst (send C (generation_request q) w)))
                  (snd (send C (generation_request q) w)))
        as (resp & w' & t & -> & Ht).
      unfold trace_of at 1 2. simpl snd. rewrite Ht.
      unfold calls. simpl. split; [lia|discriminate].
    + destruct (has_error (generation_value C
                  (fst (send C (generation_request q)
                          (snd (send C (generation_request q) w)))))) eqn:H2.
      * rewrite (guarded_answer_raise _ _ _ _ _ Hrun).
        unfold trace_of, calls. simpl. split; [lia|].
        intros _. exists q. cbv zeta.
        split; [reflexivity|]. split; [exact Hval|]. congruence.
      * rewrite (guarded_answer_after _ _ _ _ _ _ Hrun), calls_after.
        destruct (search_and_refine_total C q
                    (generation_value C
                       (fst (send C (generation_request q)
                               (snd (send C (generation_request q) w)))))
                    (snd (send C (generation_request q)
                            (snd (send C (generation_request q) w)))))
          as (resp & w' & t & Hsr & Ht).
        rewrite Hsr. unfold trace_of at 1 2. simpl snd. rewrite Ht.
        unfold calls at 1 2. simpl. split; [lia|].
        intros _. exists q. cbv zeta.
        split; [reflexivity|]. split; [exact Hval|].
        intros _. rewrite Hsr. split; [reflexivity|exact Ht].
    + rewrite (guarded_answer_raise _ _ _ _ _ Hrun).
      unfold trace_of, calls. simpl. split; [lia|discriminate].
Qed.

(** C7: whenever the search call fails at the transport level (the GET
    raises, or its answer carries an error status), the endpoint answers
    500 with the message "Open Library API failed: " followed by the text of
    the cause, and the run contains no refinement call. *)
Theorem failed_search_is_terminal (get_json : result pyval) (w : W)
        (url : string) (params : pyval) (reply : result http_response) (e : exn) :
  In (EvHttp (Get url params) reply) (trace_of (search_books C get_json w)) ->
  transport_failure reply = Some e ->
  value_of (search_books C get_json w)
  = Ok {| status := 500;
          content := Json (PyDict
            [(PyStr "error", PyStr ("Open Library API failed: " ++ exn_str e))]) |}
  /\ calls is_refinement_call (trace_of (search_books C get_json w)) = 0.
Proof.
  destruct (search_books_shape get_json w) as [[resp ->]|[q ->]].
  - intros [].
  - pose proof (answer_query_run C q w) as Hrun. cbv zeta in Hrun.
    assert (Hpre : forall qc w1 pre,
               (forall ev, In ev pre -> is_search_call ev = false) ->
               calls is_refinement_call pre = 0 ->
               answer_query C q w = after pre (search_and_refine C q qc w1) ->
               In (EvHttp (Get url params) reply) (trace_of (guarded_answer C q w)) ->
               transport_failure reply = Some e ->
               value_of (guarded_answer C q w)
               = Ok (jsonify (error_payload ("Open Library API failed: " ++ exn_str e)) 500)
               /\ calls is_refinement_call (trace_of (guarded_answer C q w)) = 0).
    { intros qc w1 pre Hnone Hzero Heq Hin Hfail.
      rewrite (guarded_answer_after _ _ _ _ _ _ Heq) in *.
      rewrite value_after, calls_after, Hzero.
      apply in_trace_after in Hin. destruct Hin as [Hin|Hin].
      - apply Hnone in Hin. discriminate.
      - exact (search_and_refine_failure C q qc w1 url params reply e Hin Hfail). }
    destruct (contains_profanity C q).
    { rewrite (guarded_answer_ok _ _ _ _ _ Hrun). unfold trace_of. simpl.
      intros [H|[]]. discriminate. }
    destruct (has_error (generation_value C (fst (send C (generation_request q) w)))).
    { rewrite (guarded_answer_ok _ _ _ _ _ Hrun). unfold trace_of. simpl.
      intros [H|[H|[]]]; discriminate. }
    destruct (validate_query_config _) as [[|]|e0].
    + apply (Hpre _ _ _) with (3 := Hrun); [|reflexivity].
      intros ev [<-|[<-|[]]]; reflexivity.
    + destruct (has_error (generation_value C
                  (fst (send C (generation_request q)
                          (snd (send C (generation_request q) w)))))).
      * rewrite (guarded_answer_raise _ _ _ _ _ Hrun). unfold trace_of. simpl.
        intros [H|[H|[H|[]]]]; discriminate.
      * apply (Hpre _ _ _) with (3 := Hrun); [|reflexivity].
        intros ev [<-|[<-|[<-|[]]]]; reflexivity.
    + rewrite (guarded_answer_raise _ _ _ _ _ Hrun). unfold trace_of. simpl.
      intros [H|[H|[]]]; discriminate.
Qed.

End Endpoint.

(** ** The helpers *)

Section Helpers.

Context {W : Type} (C : collaborators W).

Lemma validate_dict (d : entries) :
  validate_query_config (PyDict d)
  = Ok (dict_has d (PyStr "query_type") && dict_has d (PyStr "query_value")).
Proof.
  unfold validate_query_config, required_keys. simpl.
  destruct (dict_has d (PyStr "query_type")); [|reflexivity].
  destruct (dict_has d (PyStr "query_value")); reflexivity.
Qed.

(** C5: on a dict, [validate_query_config] never raises and returns true
    exactly when "query_type" and "query_value" are both keys; binding,
    rebinding or deleting "limit" does not change its result. *)
Theorem validate_query_config_required_keys (d : entries) :
  (exists b, validate_query_config (PyDict d) = Ok b)
  /\ (validate_query_config (PyDict d) = Ok true <->
      dict_has d (PyStr "query_type") = true
      /\ dict_has d (PyStr "query_value") = true)
  /\ (forall v, validate_query_config (PyDict (dict_set d (PyStr "limit") v))
                = validate_query_config (PyDict d))
  /\ validate_query_config (PyDict (dict_del d (PyStr "limit")))
     = validate_query_config (PyDict d).
Proof.
  repeat split.
  - eexists. apply validate_dict.
  - rewrite validate_dict in H. injection H as H.
    now apply andb_true_iff in H.
  - rewrite validate_dict in H. injection H as H.
    now apply andb_true_iff in H.
  - intros [H1 H2]. now rewrite validate_dict, H1, H2.
  - intro v. rewrite !validate_dict. unfold dict_has.
    rewrite !dict_lookup_set_other by reflexivity. reflexivity.
  - rewrite !validate_dict. unfold dict_has.
    rewrite !dict_lookup_del_other by reflexivity. reflexivity.
Qed.

Lemma search_params_dict (d : entries) :
  search_params (PyDict d)
  = dict_display2 (or_default (dict_lookup d (PyStr "query_type")) (PyStr "q"))
                  (or_default (dict_lookup d (PyStr "query_value")) (PyStr EmptyString))
                  (or_default (dict_lookup d (PyStr "limit")) (PyStr "3"))
                  (or_default (dict_lookup d (PyStr "limit")) (PyStr "3")).
Proof. reflexivity. Qed.

(** C10: the search helper reads each of "query_type", "query_value" and
    "limit" with a default ("q", the empty string, "3"); an absent key never
    makes it fail: unless a key that is present holds an unhashable
    parameter name, the request is issued with the values so obtained, and
    the helper returns normally. *)
Theorem search_substitutes_defaults (d : entries) (w : W) :
  let query_type := or_default (dict_lookup d (PyStr "query_type")) (PyStr "q") in
  let query_value :=
    or_default (dict_lookup d (PyStr "query_value")) (PyStr EmptyString) in
  let limit := or_default (dict_lookup d (PyStr "limit")) (PyStr "3") in
  let req :=
    Get OPEN_LIBRARY_URL (PyDict (dict_set [(query_type, query_value)] limit limit)) in
  (dict_lookup d (PyStr "query_type") = None \/ hashable query_type = true) ->
  (dict_lookup d (PyStr "limit") = None \/ hashable limit = true) ->
  exists books,
    search_books_with_openlibrary C (PyDict d) w
    = (Ok books, snd (send C req w), [EvHttp req (fst (send C req w))]).
Proof.
  intros query_type query_value limit req Hqt Hlim.
  assert (H1 : hashable query_type = true).
  { destruct Hqt as [Hqt|Hqt]; [|exact Hqt]. unfold query_type. now rewrite Hqt. }
  assert (H2 : hashable limit = true).
  { destruct Hlim as [Hlim|Hlim]; [|exact Hlim]. unfold limit. now rewrite Hlim. }
  rewrite search_run, search_params_dict.
  fold query_type query_value limit. unfold dict_display2.
  rewrite H1, H2. simpl negb. cbv iota. fold req.
  eexists. reflexivity.
Qed.

(** C1 (what the code does): with string fields, the request carries the
    parameter [query_type] with value [query_value] and a parameter named
    by the limit value itself, with that same value; unless one of the two
    names happens to be "limit", no parameter "limit" is sent. *)
Theorem limit_is_sent_as_parameter_name
        (d : entries) (qt lim : string) (qv : pyval) (w : W) :
  dict_lookup d (PyStr "query_type") = Some (PyStr qt) ->
  dict_lookup d (PyStr "query_value") = Some qv ->
  dict_lookup d (PyStr "limit") = Some (PyStr lim) ->
  let params := dict_set [(PyStr qt, qv)] (PyStr lim) (PyStr lim) in
  let req := Get OPEN_LIBRARY_URL (PyDict params) in
  trace_of (search_books_with_openlibrary C (PyDict d) w)
  = [EvHttp req (fst (send C req w))]
  /\ dict_lookup params (PyStr lim) = Some (PyStr lim)
  /\ (qt <> "limit" -> lim <> "limit" -> dict_lookup params (PyStr "limit") = None).
Proof.
  intros Hqt Hqv Hlim params req.
  repeat split.
  - rewrite search_run, search_params_dict, Hqt, Hqv, Hlim. reflexivity.
  - apply dict_lookup_set_same.
  - intros Hq Hl. unfold params. simpl.
    destruct (String.eqb qt lim) eqn:E; simpl.
    + apply String.eqb_neq in Hq. now rewrite Hq.
    + apply String.eqb_neq in Hq, Hl. now rewrite Hq, Hl.
Qed.

Lemma join_items_strings (i : nat) (l : list string) :
  join_items i (map PyStr l) = Ok l.
Proof.
  revert i. induction l as [|s l IH]; intro i; simpl; [reflexivity|].
  now rewrite IH.
Qed.

(** The code's line for a book is the spec's bullet for the document it
    represents. *)
Lemma book_line_rendered (book : pyval) (b : doc) :
  represents book b -> book_line C book = Ok (rendered_book b).
Proof.
  intros (e & -> & Ht & Ha).
  unfold book_line, py_get, rbind, rendered_book. rewrite Ht, Ha.
  destruct b as [[t|] [l|]]; simpl; try rewrite join_items_strings; reflexivity.
Qed.



Lemma stream_chunks_text (lines : list string) :
  Forall (fun line => utf8_valid (list_ascii_of_string line) = true) lines ->
  stream_chunks lines
  = (map (fun line => line ++ nl) (filter nonempty lines), true).
Proof.
  induction 1 as [|line lines Hline _ IH]; simpl; [reflexivity|].
  destruct (nonempty line); [|exact IH].
  unfold decode_utf8. rewrite Hline, IH. reflexivity.
Qed.

(** C9, amended: when the refinement call succeeds and the upstream lines
    are UTF-8 text, the answer is a 200 text/plain stream whose chunks are
    the non-empty upstream lines, in order, each followed by a newline;
    empty upstream lines are skipped. *)
Theorem nonempty_lines_are_forwarded
        (q : string) (books : pyval) (w : W) (details : string) (r : http_response) :
  book_details C books = Ok details ->
  fst (send C (refinement_request q details) w) = Ok r ->
  raise_for_status r = None ->
  Forall (fun line => utf8_valid (list_ascii_of_string line) = true) (iter_lines r) ->
  value_of (refine_response_with_ollama C q books w)
  = Ok {| status := 200;
          content := Stream "text/plain"
            (map (fun line => line ++ nl) (filter nonempty (iter_lines r)))
            true |}.
Proof.
  intros Hd Hsend Hstatus Htext.
  rewrite refine_run, Hd. unfold value_of. simpl fst.
  rewrite Hsend. unfold refinement_response, check_status, rbind.
  rewrite Hstatus, (stream_chunks_text _ Htext). reflexivity.
Qed.

End Helpers.

(** ** Concrete runs *)


Lemma flagged_query_gets_notice_witness :
  toy_profanity (strip " This is a shitty query ") = true
  /\ search_books toy (Ok (PyDict rude_body)) []
     = (Ok (respond_with_profanity_message toy), [],
        [EvModeration "This is a shitty query" true]).
Proof.
  split; [reflexivity|].
  apply (flagged_query_gets_notice toy rude_body " This is a shitty query " []).
  - reflexivity.
  - vm_compute. discriminate.
  - reflexivity.
Defined.

Lemma failed_retry_is_masked_witness :
  validate_query_config (generation_value toy (generation_reply "{'limit': '3'}"))
  = Ok false
  /\ transport_failure (@Raise http_response connection_refused)
     = Some connection_refused
  /\ value_of (search_books toy (Ok (PyDict python_body)) retry_refused)
     = Ok unexpected.
Proof.
  split; [reflexivity|]. split; [reflexivity|].
  assert (Hne : strip "python books" <> EmptyString) by (vm_compute; discriminate).
  destruct (failed_retry_is_masked toy python_body "python books" retry_refused
              connection_refused eq_refl Hne eq_refl eq_refl eq_refl eq_refl)
    as [Hrun _].
  rewrite Hrun. reflexivity.
Defined.

Lemma failed_search_is_terminal_witness :
  let run := search_books toy (Ok (PyDict python_body)) search_refused in
  let sent := Get OPEN_LIBRARY_URL
                  (PyDict [(PyStr "q", PyStr "python"); (PyStr "3", PyStr "3")]) in
  In (EvHttp sent (Raise connection_refused)) (trace_of run)
  /\ value_of run
     = Ok (jsonify (error_payload "Open Library API failed: Connection refused") 500)
  /\ calls is_refinement_call (trace_of run) = 0.
Proof.
  intros run sent.
  assert (Hin : In (EvHttp sent (Raise connection_refused)) (trace_of run)).
  { vm_compute. right. right. left. reflexivity. }
  split; [exact Hin|].
  exact (failed_search_is_terminal toy _ _ _ _ _ connection_refused Hin eq_refl).
Defined.

Lemma search_substitutes_defaults_witness :
  let sent := Get OPEN_LIBRARY_URL
                  (PyDict [(PyStr "q", PyStr EmptyString); (PyStr "3", PyStr "3")]) in
  dict_lookup [] (PyStr "query_type") = None
  /\ dict_lookup [] (PyStr "limit") = None
  /\ exists books,
       search_books_with_openlibrary toy (PyDict []) [json_reply (PyDict four_docs)]
       = (Ok books, [], [EvHttp sent (json_reply (PyDict four_docs))]).
Proof.
  intro sent. split; [reflexivity|]. split; [reflexivity|].
  apply (search_substitutes_defaults toy [] [json_reply (PyDict four_docs)]);
    left; reflexivity.
Defined.

Lemma limit_is_sent_as_parameter_name_witness :
  let params := [(PyStr "q", PyStr "python"); (PyStr "3", PyStr "3")] in
  let sent := Get OPEN_LIBRARY_URL (PyDict params) in
  trace_of (search_books_with_openlibrary toy config_q_python
              [json_reply (PyDict four_docs)])
  = [EvHttp sent (json_reply (PyDict four_docs))]
  /\ dict_lookup params (PyStr "3") = Some (PyStr "3")
  /\ dict_lookup params (PyStr "limit") = None.
Proof.
  intros params sent.
  destruct (limit_is_sent_as_parameter_name toy q_python "q" "3" (PyStr "python")
              [json_reply (PyDict four_docs)] eq_refl eq_refl eq_refl)
    as (Htrace & Hname & Hlimit).
  split; [exact Htrace|]. split; [exact Hname|].
  apply Hlimit; discriminate.
Defined.


Lemma nonempty_lines_are_forwarded_witness :
  value_of (refine_response_with_ollama toy "User query" (PyDict four_docs)
              [lines_reply ["Chunk1"; "Chunk2"]])
  = Ok {| status := 200;
          content := Stream "text/plain" ["Chunk1" ++ nl; "Chunk2" ++ nl] true |}.
Proof.
  refine (nonempty_lines_are_forwarded toy "User query" (PyDict four_docs)
            [lines_reply ["Chunk1"; "Chunk2"]] _ _ eq_refl eq_refl eq_refl _).
  repeat constructor.
Defined.

(** C9 as written fails: an empty upstream line is not forwarded. *)
Lemma blank_upstream_line_is_dropped :
  let upstream := ["Chunk1"; EmptyString; "Chunk2"] in
  exists chunks,
    value_of (refine_response_with_ollama toy "User query" (PyDict four_docs)
                [lines_reply upstream])
    = Ok {| status := 200; content := Stream "text/plain" chunks true |}
    /\ chunks <> map (fun line => line ++ nl) upstream.
Proof.
  intro upstream. exists ["Chunk1" ++ nl; "Chunk2" ++ nl].
  split; [reflexivity|]. vm_compute. discriminate.
Qed.

(** C6 as written fails: the retry is answered, its result lacks the
    required keys, and yet the search step is not reached: the result has an
    "error" key, which line 34 takes for a failed generation. *)
Lemma retry_result_with_error_key_is_not_searched :
  let run := search_books toy (Ok (PyDict python_body)) retry_answers_error in
  let answer := generation_reply "{'error': 'no idea'}" in
  transport_failure answer = None
  /\ generation_value toy answer = error_payload "no idea"
  /\ validate_query_config (generation_value toy answer) = Ok false
  /\ value_of run = Ok unexpected
  /\ calls is_search_call (trace_of run) = 0
  /\ calls is_generation_call (trace_of run) = 2.
Proof. repeat split. Qed.

Lemma generation_attempted_at_most_twice_witness :
  let run := search_books toy (Ok (PyDict python_body)) still_invalid in
  let request := generation_request "python books" in
  calls is_generation_call (trace_of run) = 2
  /\ validate_query_config config_limit_only = Ok false
  /\ run = after [EvModeration "python books" false;
                  EvHttp request (generation_reply "{'limit': '3'}");
                  EvHttp request (generation_reply "{'limit': '3'}")]
                 (search_and_refine toy "python books" config_limit_only
                    [json_reply (PyDict four_docs);
                     lines_reply ["Chunk1"; "Chunk2"]]).
Proof.
  intros run request. split; [reflexivity|]. split; [reflexivity|].
  destruct (proj2 (generation_attempted_at_most_twice toy
                     (Ok (PyDict python_body)) still_invalid) eq_refl)
    as (q & Hpre & _ & Hgo).
  cbv zeta in Hpre, Hgo.
  assert (Hq : q = "python books").
  { change (firstn 3 (trace_of (search_books toy (Ok (PyDict python_body)) still_invalid)))
      with [EvModeration "python books" false;
            EvHttp request (generation_reply "{'limit': '3'}");
            EvHttp request (generation_reply "{'limit': '3'}")] in Hpre.
    injection Hpre as Hq _. now symmetry. }
  subst q. exact (proj1 (Hgo eq_refl)).
Defined.

(** ** The cases of test_app.py, run on the embedding *)

Example test_invalid_input_empty_string :
  value_of (search_books toy (body_with_query EmptyString) [])
  = Ok (jsonify (error_payload invalid_input_message) 400).
Proof. reflexivity. Qed.

Example test_invalid_input_no_query_key :
  value_of (search_books toy (Ok (PyDict [(PyStr "wrong_key", PyStr "hello")])) [])
  = Ok (jsonify (error_payload invalid_input_message) 400).
Proof. reflexivity. Qed.

Example test_generate_query_with_ollama_success :
  value_of (generate_query_with_ollama toy "some query" [generation_reply good_answer])
  = Ok config_q_python.
Proof. reflexivity. Qed.

Example test_generate_query_with_ollama_error :
  value_of (generate_query_with_ollama toy "some query"
              [Raise (Exn "Exception" "Some network error")])
  = Ok (error_payload "Ollama generation failed: Some network error").
Proof. reflexivity. Qed.

Example test_validate_query_config_success :
  validate_query_config config_q_python = Ok true.
Proof. reflexivity. Qed.

Example test_validate_query_config_failure :
  validate_query_config config_limit_only = Ok false.
Proof. reflexivity. Qed.

Example test_search_books_with_openlibrary_success :
  value_of (search_books_with_openlibrary toy config_q_python
              [json_reply (PyDict four_docs)])
  = Ok (PyDict four_docs).
Proof. reflexivity. Qed.

Example test_search_books_with_openlibrary_error :
  value_of (search_books_with_openlibrary toy config_q_python
              [Raise (Exn "Exception" "Open Library is down")])
  = Ok (error_payload "Open Library API failed: Open Library is down").
Proof. reflexivity. Qed.

Example test_refine_response_with_ollama_error :
  value_of (refine_response_with_ollama toy "User query" (PyDict four_docs)
              [Raise (Exn "Exception" "Refinement error")])
  = Ok (jsonify (error_payload "Refinement failed: Refinement error") 500).
Proof. reflexivity. Qed.

(** The whole pipeline on the spec's end-to-end case. *)
Example end_to_end :
  value_of (search_books toy (body_with_query "best sci-fi books")
              [generation_reply good_answer; json_reply (PyDict four_docs);
               lines_reply ["Chunk1"; "Chunk2"]])
  = Ok {| status := 200;
          content := Stream "text/plain" ["Chunk1" ++ nl; "Chunk2" ++ nl] true |}.
Proof. reflexivity. Qed.

(** ** Boundary cases *)

(** A JSON body that is not an object cannot be searched for a "query"
    field: line 18 raises and the catch-all answers. *)
Example number_as_body :
  search_books toy (Ok (PyInt 5)) [] = (Ok unexpected, [], []).
Proof. reflexivity. Qed.

(** No JSON body at all ([get_json] returned None) is invalid input. *)
Example null_body :
  search_books toy (Ok PyNone) []
  = (Ok (jsonify (error_payload invalid_input_message) 400), [], []).
Proof. reflexivity. Qed.

(** An answer of the model that itself has an "error" key is taken for a
    failed generation (line 28). *)
Example model_answers_with_error_key :
  value_of (search_books toy (Ok (PyDict python_body))
              [generation_reply "{'error': 'no idea'}"])
  = Ok (jsonify (error_payload "no idea") 500).
Proof. reflexivity. Qed.

(** A config whose query_type is a list cannot be turned into parameters:
    the search helper fails before any request is sent. *)
Example unhashable_query_type :
  search_books_with_openlibrary toy
    (PyDict [(PyStr "query_type", PyList [PyStr "q"])]) []
  = (Ok (error_payload "Open Library API failed: unhashable type: 'list'"), [], []).
Proof. reflexivity. Qed.

(** * Further properties of the handler *)

Section Paths.

Context {W : Type} (C : collaborators W).

Lemma generation_value_outcome (reply : result http_response) :
  generation_value C reply
  = match generation_outcome C reply with
    | Ok v => v
    | Raise e => error_payload ("Ollama generation failed: " ++ exn_str e)
    end.
Proof. reflexivity. Qed.

(** A search value without an "error" key is the body of a good answer. *)
Lemma search_value_clean (reply : result http_response) :
  has_error (search_value reply) = false ->
  exists r, reply = Ok r /\ raise_for_status r = None
            /\ json_body r = Ok (search_value reply).
Proof.
  destruct reply as [r|e]; [|discriminate].
  unfold search_value, check_status, rbind.
  destruct (raise_for_status r) eqn:Hs; [discriminate|].
  destruct (json_body r) eqn:Hj; [|discriminate].
  intros _. exists r. split; [reflexivity|]. split; [exact Hs|].
  exact Hj.
Qed.

(** The run of lines 38-49, case by case. *)
Lemma search_and_refine_run (q : string) (qc : pyval) (w : W) :
  search_and_refine C q qc w =
  match search_params qc with
  | Raise e =>
      (Ok (jsonify (error_payload ("Open Library API failed: " ++ exn_str e)) 500),
       w, [])
  | Ok params =>
      let got := send C (Get OPEN_LIBRARY_URL params) w in
      let books := search_value (fst got) in
      let searched := EvHttp (Get OPEN_LIBRARY_URL params) (fst got) in
      if has_error books then (Ok (jsonify books 500), snd got, [searched])
      else match book_details C books with
           | Raise e =>
               (Ok (jsonify (error_payload ("Refinement failed: " ++ exn_str e)) 500),
                snd got, [searched])
           | Ok details =>
               let sent := send C (refinement_request q details) (snd got) in
               (Ok (refinement_response (fst sent)), snd sent,
                [searched; EvHttp (refinement_request q details) (fst sent)])
           end
  end.
Proof.
  unfold search_and_refine, bind, ret. rewrite search_run.
  destruct (search_params qc) as [params|e].
  - cbv zeta. destruct (has_error (search_value _)); [reflexivity|].
    rewrite refine_run. destruct (book_details C _); reflexivity.
  - rewrite has_error_payload. reflexivity.
Qed.

(** Before line 23 the handler has called nobody, and it leaves early only
    with one of two answers. *)
Lemma search_books_early (get_json : result pyval) (w : W) :
  search_books C get_json w = (Ok invalid_input_response, w, [])
  \/ search_books C get_json w = (Ok unexpected, w, [])
  \/ exists q, search_books C get_json w = guarded_answer C q w.
Proof.
  unfold search_books, guarded_answer, try_except.
  rewrite bind_lift. destruct get_json as [data|e]; [|right; left; reflexivity].
  rewrite bind_lift.
  destruct (invalid_input data) as [[|]|e];
    [left; reflexivity| |right; left; reflexivity].
  rewrite bind_lift.
  destruct (py_getitem data "query") as [qv|e]; [|right; left; reflexivity].
  rewrite bind_lift.
  destruct (str_strip qv) as [q|e]; [|right; left; reflexivity].
  right. right. exists q. reflexivity.
Qed.

Lemma refinement_response_kinds (reply : result http_response) :
  (exists chunks ok,
      transport_failure reply = None
      /\ refinement_response reply
         = {| status := 200; content := Stream "text/plain" chunks ok |})
  \/ (exists e,
         transport_failure reply = Some e
         /\ refinement_response reply
            = jsonify (error_payload ("Refinement failed: " ++ exn_str e)) 500).
Proof.
  unfold refinement_response, transport_failure, check_status, rbind.
  destruct reply as [r|e]; [|right; eexists; split; reflexivity].
  destruct (raise_for_status r).
  - right. eexists. split; reflexivity.
  - left. do 2 eexists. split; reflexivity.
Qed.

(** Split a goal about [search_books C get_json w] into the paths the
    handler can take, each with its answer, final world and trace. *)
Ltac search_paths C q :=
  let Hrun := fresh "Hrun" in
  rewrite search_and_refine_run; cbv zeta;
  destruct (search_params _) as [?params|?e] eqn:?Hparams;
  [ destruct (has_error (search_value _)) eqn:?Hsearch;
    [ | destruct (book_details C _) as [?details|?e] eqn:?Hdetails ]
  | ];
  unfold after.

Ltac handler_paths C get_json w :=
  let Hrun := fresh "Hrun" in
  let q := fresh "q" in
  destruct (search_books_early get_json w) as [Hrun|[Hrun|[q Hrun]]];
  [ rewrite Hrun; clear Hrun
  | rewrite Hrun; clear Hrun
  | rewrite Hrun; clear Hrun;
    pose proof (answer_query_run C q w) as Hrun; cbv zeta in Hrun;
    destruct (contains_profanity C q) eqn:?Hflag;
    [ rewrite (guarded_answer_ok C _ _ _ _ _ Hrun); clear Hrun
    | destruct (has_error (generation_value C
                  (fst (send C (generation_request q) w)))) eqn:?Hfirst;
      [ rewrite (guarded_answer_ok C _ _ _ _ _ Hrun); clear Hrun
      | destruct (validate_query_config (generation_value C
                    (fst (send C (generation_request q) w))))
          as [[|]|?e] eqn:?Hvalid;
        [ rewrite (guarded_answer_after C _ _ _ _ _ _ Hrun); clear Hrun;
          search_paths C q
        | destruct (has_error (generation_value C
                      (fst (send C (generation_request q)
                              (snd (send C (generation_request q) w))))))
            eqn:?Hsecond;
          [ rewrite (guarded_answer_raise C _ _ _ _ _ Hrun); clear Hrun
          | rewrite (guarded_answer_after C _ _ _ _ _ _ Hrun); clear Hrun;
            search_paths C q ]
        | rewrite (guarded_answer_raise C _ _ _ _ _ Hrun); clear Hrun ] ] ] ].


Lemma search_value_ok (r : http_response) (books : pyval) :
  raise_for_status r = None -> json_body r = Ok books ->
  search_value (Ok r) = books.
Proof.
  intros Hs Hj. unfold search_value, check_status, rbind. now rewrite Hs, Hj.
Qed.

Lemma refinement_response_failure (reply : result http_response) (e : exn) :
  transport_failure reply = Some e ->
  refinement_response reply
  = jsonify (error_payload ("Refinement failed: " ++ exn_str e)) 500.
Proof.
  intro Hfail.
  destruct (refinement_response_kinds reply)
    as [(chunks & ok & Hnone & _)|(e' & Hsome & ->)]; congruence.
Qed.

Ltac in_trace :=
  unfold trace_of, value_of, calls, generation_request, refinement_request in *;
  cbn [fst snd app In]; intro Hin;
  repeat match goal with
         | H : _ \/ _ |- _ => destruct H
         | H : False |- _ => destruct H
         end;
  try discriminate.

(** X4: when the search service answers normally but its JSON body is an
    object with an "error" key, that object is returned to the client with
    status 500 and the refinement service is not called. *)
Theorem search_error_body_is_terminal (get_json : result pyval) (w : W)
        (url : string) (params : pyval) (r : http_response) (books : pyval) :
  In (EvHttp (Get url params) (Ok r)) (trace_of (search_books C get_json w)) ->
  raise_for_status r = None ->
  json_body r = Ok books ->
  has_error books = true ->
  value_of (search_books C get_json w) = Ok (jsonify books 500)
  /\ calls is_refinement_call (trace_of (search_books C get_json w)) = 0.
Proof.
  intros Hin Hs Hj Herr.
  pose proof (search_value_ok r books Hs Hj) as Hval.
  revert Hin. handler_paths C get_json w; in_trace.
  all: match goal with
       | H : EvHttp (Get _ _) _ = EvHttp (Get _ _) _ |- _ =>
           injection H as _ _ Hreply
       end.
  all: rewrite Hreply in *; rewrite Hval in *; try congruence.
  all: split; reflexivity.
Qed.

(** X5: when the streaming call to the text service fails at the transport
    level, the answer is 500 with "Refinement failed: " and the cause. *)
Theorem refinement_failure_is_reported (get_json : result pyval) (w : W)
        (url : string) (payload : pyval) (reply : result http_response) (e : exn) :
  In (EvHttp (Post url payload true) reply) (trace_of (search_books C get_json w)) ->
  transport_failure reply = Some e ->
  value_of (search_books C get_json w)
  = Ok {| status := 500;
          content := Json (PyDict
            [(PyStr "error", PyStr ("Refinement failed: " ++ exn_str e))]) |}.
Proof.
  intros Hin Hfail. revert Hin. handler_paths C get_json w; in_trace.
  all: match goal with
       | H : EvHttp (Post _ _ true) _ = EvHttp (Post _ _ true) _ |- _ =>
           injection H as _ _ Hreply
       end.
  all: rewrite Hreply, (refinement_response_failure _ _ Hfail); reflexivity.
Qed.

(** X6: a run makes at most one search call and at most one refinement
    call; the refinement call, when there is one, is the last call of the
    run and comes right after a search call that was answered normally with
    a body without "error" key, whose book list it carries. *)
Theorem refinement_follows_a_good_search (get_json : result pyval) (w : W) :
  calls is_search_call (trace_of (search_books C get_json w)) <= 1
  /\ calls is_refinement_call (trace_of (search_books C get_json w)) <= 1
  /\ (calls is_refinement_call (trace_of (search_books C get_json w)) = 1 ->
      exists pre params r books q details reply,
        trace_of (search_books C get_json w)
        = (pre ++ [EvHttp (Get OPEN_LIBRARY_URL params) (Ok r);
                   EvHttp (refinement_request q details) reply])%list
        /\ raise_for_status r = None
        /\ json_body r = Ok books
        /\ has_error books = false
        /\ book_details C books = Ok details).
Proof.
  handler_paths C get_json w; unfold trace_of, calls; cbn [snd app];
    (split; [cbn; lia|]); (split; [cbn; lia|]);
    try (cbn; discriminate).
  all: intros _;
    destruct (search_value_clean _ Hsearch) as (r & Hreply & Hs & Hj);
    rewrite Hreply in *.
  - exists [EvModeration q false;
            EvHttp (generation_request q) (fst (send C (generation_request q) w))].
    do 6 eexists. split; [reflexivity|]. repeat split; eassumption.
  - exists [EvModeration q false;
            EvHttp (generation_request q) (fst (send C (generation_request q) w));
            EvHttp (generation_request q)
                   (fst (send C (generation_request q)
                           (snd (send C (generation_request q) w))))].
    do 6 eexists. split; [reflexivity|]. repeat split; eassumption.
Qed.

(** X7: the moderation filter is called at most once and before anything
    else; what follows are at most four HTTP calls, each a POST to
    OLLAMA_URL or a GET to OPEN_LIBRARY_URL, and none at all when the
    filter flags the query. *)
Theorem calls_are_moderation_then_known_endpoints
        (get_json : result pyval) (w : W) :
  trace_of (search_books C get_json w) = []
  \/ exists q flagged rest,
       trace_of (search_books C get_json w) = EvModeration q flagged :: rest
       /\ forallb known_endpoint rest = true
       /\ length rest <= 4
       /\ (flagged = true -> rest = []).
Proof.
  handler_paths C get_json w; unfold trace_of; cbn [snd app];
    first [ left; reflexivity
          | right; do 3 eexists; split; [reflexivity|];
            split; [reflexivity|]; split; [cbn [length]; lia|];
            first [reflexivity | discriminate | intros _; reflexivity] ].
Qed.

(** X20: when the search service answers with a good status but a body
    that is not JSON, the endpoint answers 500 with "Open Library API
    failed: " and the parser's message, and the refinement service is not
    called. *)
Theorem unreadable_search_body_is_terminal (get_json : result pyval) (w : W)
        (url : string) (params : pyval) (r : http_response) (e : exn) :
  In (EvHttp (Get url params) (Ok r)) (trace_of (search_books C get_json w)) ->
  raise_for_status r = None ->
  json_body r = Raise e ->
  value_of (search_books C get_json w)
  = Ok {| status := 500;
          content := Json (PyDict
            [(PyStr "error", PyStr ("Open Library API failed: " ++ exn_str e))]) |}
  /\ calls is_refinement_call (trace_of (search_books C get_json w)) = 0.
Proof.
  intros Hin Hs Hj.
  assert (Hval : search_value (Ok r)
                 = error_payload ("Open Library API failed: " ++ exn_str e))
    by (unfold search_value, check_status, rbind; now rewrite Hs, Hj).
  revert Hin. handler_paths C get_json w; in_trace.
  all: match goal with
       | H : EvHttp (Get _ _) _ = EvHttp (Get _ _) _ |- _ =>
           injection H as _ _ Hreply
       end.
  all: rewrite Hreply in *; rewrite Hval in *;
    try (rewrite has_error_payload in *; discriminate).
  all: split; reflexivity.
Qed.

End Paths.

(** ** Single paths *)

Section Cases.

Context {W : Type} (C : collaborators W).


(** X2: an answer of the generation service whose JSON object has no
    "response" entry, or one that is not a string, is a failed generation:
    [eval] is applied to a non-string and the helper returns the error
    object. *)
Theorem answer_without_text_is_a_failure
        (q : string) (w : W) (r : http_response) (data : entries) :
  fst (send C (generation_request q) w) = Ok r ->
  raise_for_status r = None ->
  json_body r = Ok (PyDict data) ->
  is_str (or_default (dict_lookup data (PyStr "response")) (PyDict [])) = false ->
  generate_query_with_ollama C q w
  = (Ok (error_payload
           "Ollama generation failed: eval() arg 1 must be a string, bytes or code object"),
     snd (send C (generation_request q) w),
     [EvHttp (generation_request q) (Ok r)]).
Proof.
  intros Hsend Hs Hj Htext.
  rewrite generate_run, Hsend.
  unfold generation_value, check_status, rbind, py_get. rewrite Hs, Hj.
  destruct (or_default _ _); try discriminate; reflexivity.
Qed.


(** X9: when the model's answer evaluates to None, a bool or a number, the
    key test of [validate_query_config] raises; the endpoint answers with
    the generic 500 after the one generation call, without a retry. *)
Theorem scalar_answer_is_unexpected (d : entries) (q : string) (w : W) (v : pyval) :
  dict_lookup d (PyStr "query") = Some (PyStr q) ->
  strip q <> EmptyString ->
  contains_profanity C (strip q) = false ->
  let first := send C (generation_request (strip q)) w in
  generation_outcome C (fst first) = Ok v ->
  iterable v = false ->
  search_books C (Ok (PyDict d)) w
  = (Ok {| status := 500;
           content := Json (PyDict
             [(PyStr "error", PyStr "An unexpected error occurred.")]) |},
     snd first,
     [EvModeration (strip q) false;
      EvHttp (generation_request (strip q)) (fst first)]).
Proof.
  intros Hq Hne Hclean first Hout Hit.
  rewrite (valid_query_accepted C d q w Hq Hne).
  pose proof (answer_query_run C (strip q) w) as Hrun. cbv zeta in Hrun.
  rewrite Hclean in Hrun. fold first in Hrun.
  rewrite generation_value_outcome, Hout in Hrun.
  destruct v; try discriminate; exact (guarded_answer_raise C _ _ _ _ _ Hrun).
Qed.

(** X10: when the first result lacks a required key and the retry returns a
    config from which parameters can be built, the search request is built
    from the retried config; the first result plays no further part. *)
Theorem retry_result_is_searched (d : entries) (q : string) (w : W) (params : pyval) :
  dict_lookup d (PyStr "query") = Some (PyStr q) ->
  strip q <> EmptyString ->
  contains_profanity C (strip q) = false ->
  let first := send C (generation_request (strip q)) w in
  let second := send C (generation_request (strip q)) (snd first) in
  let got := send C (Get OPEN_LIBRARY_URL params) (snd second) in
  has_error (generation_value C (fst first)) = false ->
  validate_query_config (generation_value C (fst first)) = Ok false ->
  has_error (generation_value C (fst second)) = false ->
  search_params (generation_value C (fst second)) = Ok params ->
  firstn 4 (trace_of (search_books C (Ok (PyDict d)) w))
  = [EvModeration (strip q) false;
     EvHttp (generation_request (strip q)) (fst first);
     EvHttp (generation_request (strip q)) (fst second);
     EvHttp (Get OPEN_LIBRARY_URL params) (fst got)]
  /\ calls is_search_call (trace_of (search_books C (Ok (PyDict d)) w)) = 1.
Proof.
  intros Hq Hne Hclean first second got H1 Hval H2 Hparams.
  rewrite (valid_query_accepted C d q w Hq Hne).
  pose proof (answer_query_run C (strip q) w) as Hrun. cbv zeta in Hrun.
  rewrite Hclean in Hrun. fold first in Hrun. rewrite H1, Hval in Hrun.
  fold second in Hrun. rewrite H2 in Hrun.
  rewrite (guarded_answer_after C _ _ _ _ _ _ Hrun).
  rewrite search_and_refine_run, Hparams. cbv zeta. fold got.
  destruct (has_error (search_value (fst got))); [split; reflexivity|].
  destruct (book_details C _); split; reflexivity.
Qed.

(** X11: the whole pipeline.  A valid, unflagged query whose generation
    gives a valid config, whose search is answered with a body without
    "error" key, whose books can be listed and whose refinement call is
    accepted, is answered with status 200 and the text/plain stream of the
    refinement; the four collaborators are called once each, in the order
    moderation, generation, search, refinement. *)
Theorem full_pipeline (d : entries) (q : string) (w : W) (config params books : pyval)
        (r r' : http_response) (details : string) :
  dict_lookup d (PyStr "query") = Some (PyStr q) ->
  strip q <> EmptyString ->
  contains_profanity C (strip q) = false ->
  let first := send C (generation_request (strip q)) w in
  let got := send C (Get OPEN_LIBRARY_URL params) (snd first) in
  let sent := send C (refinement_request (strip q) details) (snd got) in
  generation_outcome C (fst first) = Ok config ->
  has_error config = false ->
  validate_query_config config = Ok true ->
  search_params config = Ok params ->
  fst got = Ok r -> raise_for_status r = None -> json_body r = Ok books ->
  has_error books = false ->
  book_details C books = Ok details ->
  fst sent = Ok r' -> raise_for_status r' = None ->
  search_books C (Ok (PyDict d)) w
  = (Ok {| status := 200;
           content := Stream "text/plain"
                        (fst (stream_chunks (iter_lines r')))
                        (snd (stream_chunks (iter_lines r'))) |},
     snd sent,
     [EvModeration (strip q) false;
      EvHttp (generation_request (strip q)) (fst first);
      EvHttp (Get OPEN_LIBRARY_URL params) (Ok r);
      EvHttp (refinement_request (strip q) details) (Ok r')]).
Proof.
  intros Hq Hne Hclean first got sent Hout Hc Hvalid Hparams
         Hgot Hs Hj Hb Hdetails Hsent Hs'.
  rewrite (valid_query_accepted C d q w Hq Hne).
  pose proof (answer_query_run C (strip q) w) as Hrun. cbv zeta in Hrun.
  rewrite Hclean in Hrun. fold first in Hrun.
  rewrite generation_value_outcome, Hout, Hc, Hvalid in Hrun.
  rewrite (guarded_answer_after C _ _ _ _ _ _ Hrun).
  rewrite search_and_refine_run, Hparams. cbv zeta. fold got.
  rewrite Hgot, (search_value_ok r books Hs Hj), Hb, Hdetails.
  fold sent. rewrite Hsent.
  unfold refinement_response, check_status, rbind, after. rewrite Hs'.
  reflexivity.
Qed.

(** X12: a request whose JSON body could not be read, or is not an object,
    is answered at once, with the invalid-input 400 or the generic 500; no
    collaborator is called. *)
Theorem non_object_body_calls_nobody (get_json : result pyval) (w : W) :
  (forall d, get_json <> Ok (PyDict d)) ->
  search_books C get_json w = (Ok invalid_input_response, w, [])
  \/ search_books C get_json w = (Ok unexpected, w, []).
Proof.
  intro Hnot.
  unfold search_books, try_except.
  rewrite bind_lift. destruct get_json as [data|e]; [|right; reflexivity].
  rewrite bind_lift.
  destruct (invalid_input data) as [[|]|e]; [left; reflexivity| |right; reflexivity].
  rewrite bind_lift.
  destruct data; try (right; reflexivity).
  exfalso. exact (Hnot d eq_refl).
Qed.

(** X13: the answer depends on the body only through the stripped query:
    two bodies whose queries differ in surrounding whitespace, or in fields
    other than "query", get the same answer after the same calls. *)
Theorem only_the_stripped_query_matters
        (d1 d2 : entries) (q1 q2 : string) (w : W) :
  dict_lookup d1 (PyStr "query") = Some (PyStr q1) ->
  dict_lookup d2 (PyStr "query") = Some (PyStr q2) ->
  strip q1 = strip q2 ->
  strip q1 <> EmptyString ->
  search_books C (Ok (PyDict d1)) w = search_books C (Ok (PyDict d2)) w.
Proof.
  intros H1 H2 Heq Hne.
  rewrite (valid_query_accepted C d1 q1 w H1 Hne).
  rewrite (valid_query_accepted C d2 q2 w H2) by (rewrite <- Heq; exact Hne).
  now rewrite Heq.
Qed.

End Cases.

(** ** More on the helpers *)

Section MoreHelpers.

Context {W : Type} (C : collaborators W).

(** X14: for a config with a string query type and a string limit, the
    request has two parameters when the two strings differ; when they are
    equal, the display of line 102 binds the same key twice and the request
    has the single parameter limit=limit: the query value is not sent. *)
Theorem equal_names_drop_the_query_value
        (d : entries) (qt lim : string) (qv : pyval) (w : W) :
  dict_lookup d (PyStr "query_type") = Some (PyStr qt) ->
  dict_lookup d (PyStr "query_value") = Some qv ->
  dict_lookup d (PyStr "limit") = Some (PyStr lim) ->
  let params :=
    if String.eqb qt lim then [(PyStr qt, PyStr lim)]
    else [(PyStr qt, qv); (PyStr lim, PyStr lim)] in
  let req := Get OPEN_LIBRARY_URL (PyDict params) in
  trace_of (search_books_with_openlibrary C (PyDict d) w)
  = [EvHttp req (fst (send C req w))].
Proof.
  intros Hqt Hqv Hlim params req.
  rewrite search_run, search_params_dict, Hqt, Hqv, Hlim.
  unfold req, params, dict_display2. simpl.
  destruct (String.eqb qt lim); reflexivity.
Qed.

(** X15: a config that is not a dict has no [get]: the search helper sends
    nothing and returns the error object naming the type. *)
Theorem search_needs_a_dict (qc : pyval) (w : W) :
  is_dict qc = false ->
  search_books_with_openlibrary C qc w
  = (Ok (error_payload ("Open Library API failed: '" ++ type_name qc
                        ++ "' object has no attribute 'get'")),
     w, []).
Proof.
  intro Hd. rewrite search_run.
  destruct qc; try discriminate; reflexivity.
Qed.

Lemma comprehension_stops (good : list pyval) (ds : list doc)
      (bad : pyval) (rest : list pyval) (e : exn) :
  Forall2 represents good ds ->
  book_line C bad = Raise e ->
  comprehension (book_line C) (good ++ bad :: rest) = Raise e.
Proof.
  intros Hgood Hbad. induction Hgood as [|book b l ds' Hb _ IH]; simpl.
  - now rewrite Hbad.
  - now rewrite (book_line_rendered C _ _ Hb), IH.
Qed.

Lemma firstn_3_split {A} (good : list A) (bad : A) (rest : list A) :
  length good < 3 ->
  exists rest', firstn 3 (good ++ bad :: rest) = (good ++ bad :: rest')%list.
Proof.
  intro Hlen.
  destruct good as [|a [|b [|c good]]]; simpl in Hlen; try lia;
    eexists; reflexivity.
Qed.

(** X16: when one of the first three documents is not a JSON object, the
    book list cannot be written: the refinement helper answers 500 with
    "Refinement failed: " and the attribute error, and the text service is
    not called. *)
Theorem bad_document_blocks_refinement
        (books : entries) (good : list pyval) (bad : pyval) (rest : list pyval)
        (ds : list doc) (q : string) (w : W) :
  or_default (dict_lookup books (PyStr "docs")) (PyList [])
  = PyList (good ++ bad :: rest) ->
  length good < 3 ->
  Forall2 represents good ds ->
  is_dict bad = false ->
  refine_response_with_ollama C q (PyDict books) w
  = (Ok {| status := 500;
           content := Json (PyDict
             [(PyStr "error",
               PyStr ("Refinement failed: '" ++ type_name bad
                      ++ "' object has no attribute 'get'"))]) |},
     w, []).
Proof.
  intros Hdocs Hlen Hgood Hbad.
  assert (Hline : book_line C bad = Raise (no_attribute bad "get"))
    by (destruct bad; try discriminate; reflexivity).
  destruct (firstn_3_split good bad rest Hlen) as [rest' Hfirst].
  rewrite refine_run.
  unfold book_details, py_get. cbn [rbind]. rewrite Hdocs. cbn [rbind slice3].
  rewrite Hfirst, (comprehension_stops _ _ _ _ _ Hgood Hline).
  reflexivity.
Qed.

(** X17: a search result without documents (no "docs" entry, or an empty
    list) does not stop the pipeline: the refinement request is sent, with
    an empty book list in its prompt. *)
Theorem empty_result_is_still_refined (books : entries) (q : string) (w : W) :
  or_default (dict_lookup books (PyStr "docs")) (PyList []) = PyList [] ->
  let req := refinement_request q EmptyString in
  refine_response_with_ollama C q (PyDict books) w
  = (Ok (refinement_response (fst (send C req w))), snd (send C req w),
     [EvHttp req (fst (send C req w))]).
Proof.
  intros Hdocs req. rewrite refine_run.
  unfold book_details, py_get. cbn [rbind]. rewrite Hdocs. reflexivity.
Qed.

(** X21: when the value under "query_type" or under "limit" is a list or
    a dict, it cannot be a parameter name: the search helper sends nothing
    and returns the error object naming the first such type. *)
Theorem unhashable_name_sends_nothing (d : entries) (w : W) :
  let query_type := or_default (dict_lookup d (PyStr "query_type")) (PyStr "q") in
  let limit := or_default (dict_lookup d (PyStr "limit")) (PyStr "3") in
  let culprit := if hashable query_type then limit else query_type in
  (hashable query_type && hashable limit)%bool = false ->
  search_books_with_openlibrary C (PyDict d) w
  = (Ok (error_payload ("Open Library API failed: unhashable type: '"
                        ++ type_name culprit ++ "'")),
     w, []).
Proof.
  intros query_type limit culprit Hbad.
  rewrite search_run, search_params_dict.
  fold query_type limit. unfold dict_display2, culprit.
  destruct (hashable query_type); [|reflexivity].
  simpl in Hbad. rewrite Hbad. reflexivity.
Qed.

End MoreHelpers.

(** ** The stream *)

(** X18: the chunks of the stream are always a prefix of the non-empty
    upstream lines, each with its newline: nothing is reordered, altered or
    added; and a stream that ended normally has them all. *)
Theorem stream_is_a_prefix_of_the_lines (lines : list string) :
  let expected := map (fun line => line ++ nl) (filter nonempty lines) in
  (exists n, fst (stream_chunks lines) = firstn n expected)
  /\ (snd (stream_chunks lines) = true -> fst (stream_chunks lines) = expected).
Proof.
  induction lines as [|line lines [[n Hn] Hall]]; simpl.
  - split; [exists 0; reflexivity|reflexivity].
  - destruct (nonempty line); [|split; [exists n; exact Hn|exact Hall]].
    unfold decode_utf8. destruct (utf8_valid _).
    + destruct (stream_chunks lines) as [out ok]. simpl in *. split.
      * exists (S n). simpl. now rewrite Hn.
      * intro Hok. now rewrite (Hall Hok).
    + simpl. split; [exists 0; reflexivity|discriminate].
Qed.

(** X19: the stream ends at the first non-empty line that is not UTF-8:
    the lines before it have been sent, nothing after it is, and the stream
    is marked incomplete. *)
Theorem stream_stops_at_undecodable_line (before : list string) (bad : string)
        (rest : list string) :
  Forall (fun line => utf8_valid (list_ascii_of_string line) = true) before ->
  nonempty bad = true ->
  utf8_valid (list_ascii_of_string bad) = false ->
  stream_chunks (before ++ bad :: rest)
  = (map (fun line => line ++ nl) (filter nonempty before), false).
Proof.
  intros Hbefore Hne Hbad.
  induction Hbefore as [|line before Hline _ IH]; simpl.
  - unfold decode_utf8. now rewrite Hne, Hbad.
  - destruct (nonempty line); [|exact IH].
    unfold decode_utf8. rewrite Hline, IH. reflexivity.
Qed.

(** ** Concrete runs for the further properties *)

Lemma search_error_body_is_terminal_witness :
  let run := search_books toy (Ok (PyDict python_body))
               [generation_reply good_answer; json_reply search_says_error] in
  has_error search_says_error = true
  /\ value_of run = Ok (jsonify search_says_error 500)
  /\ calls is_refinement_call (trace_of run) = 0.
Proof.
  intro run. split; [reflexivity|].
  refine (search_error_body_is_terminal toy _ _ OPEN_LIBRARY_URL
            (PyDict [(PyStr "q", PyStr "python"); (PyStr "3", PyStr "3")])
            {| raise_for_status := None; json_body := Ok search_says_error;
               iter_lines := [] |}
            search_says_error _ eq_refl eq_refl eq_refl).
  vm_compute. right. right. left. reflexivity.
Defined.

Lemma refinement_failure_is_reported_witness :
  let run := search_books toy (Ok (PyDict python_body))
               [generation_reply good_answer; json_reply (PyDict four_docs);
                Raise connection_refused] in
  calls is_refinement_call (trace_of run) = 1
  /\ value_of run
     = Ok (jsonify (error_payload "Refinement failed: Connection refused") 500).
Proof.
  intro run. split; [reflexivity|].
  assert (Hin : exists payload,
             In (EvHttp (Post OLLAMA_URL payload true) (Raise connection_refused))
                (trace_of run)).
  { eexists. vm_compute. right. right. right. left. reflexivity. }
  destruct Hin as [payload Hin].
  exact (refinement_failure_is_reported toy _ _ _ _ _ connection_refused Hin eq_refl).
Defined.

Lemma unreadable_search_body_is_terminal_witness :
  let run := search_books toy (Ok (PyDict python_body))
               [generation_reply good_answer; lines_reply ["<html>"]] in
  value_of run
  = Ok (jsonify (error_payload "Open Library API failed: Expecting value") 500)
  /\ calls is_refinement_call (trace_of run) = 0.
Proof.
  intro run.
  refine (unreadable_search_body_is_terminal toy _ _ OPEN_LIBRARY_URL
            (PyDict [(PyStr "q", PyStr "python"); (PyStr "3", PyStr "3")])
            {| raise_for_status := None;
               json_body := Raise (Exn "JSONDecodeError" "Expecting value");
               iter_lines := ["<html>"] |}
            (Exn "JSONDecodeError" "Expecting value") _ eq_refl eq_refl).
  vm_compute. right. right. left. reflexivity.
Defined.

Lemma refinement_follows_a_good_search_witness :
  let run := search_books toy (Ok (PyDict python_body)) all_answer in
  calls is_refinement_call (trace_of run) = 1
  /\ exists pre params r books q details reply,
       trace_of run
       = (pre ++ [EvHttp (Get OPEN_LIBRARY_URL params) (Ok r);
                  EvHttp (refinement_request q details) reply])%list
       /\ raise_for_status r = None
       /\ json_body r = Ok books
       /\ has_error books = false
       /\ book_details toy books = Ok details.
Proof.
  intro run. split; [reflexivity|].
  exact (proj2 (proj2 (refinement_follows_a_good_search toy
                         (Ok (PyDict python_body)) all_answer)) eq_refl).
Defined.


Lemma answer_without_text_is_a_failure_witness :
  let answer := json_reply (PyDict [(PyStr "done", PyBool true)]) in
  value_of (generate_query_with_ollama toy "some query" [answer])
  = Ok (error_payload
          "Ollama generation failed: eval() arg 1 must be a string, bytes or code object").
Proof.
  intro answer.
  rewrite (answer_without_text_is_a_failure toy "some query" [answer]
             {| raise_for_status := None;
                json_body := Ok (PyDict [(PyStr "done", PyBool true)]);
                iter_lines := [] |}
             [(PyStr "done", PyBool true)] eq_refl eq_refl eq_refl eq_refl).
  reflexivity.
Defined.


Lemma scalar_answer_is_unexpected_witness :
  generation_outcome toy_number (generation_reply "3") = Ok (PyInt 3)
  /\ value_of (search_books toy_number (Ok (PyDict python_body))
                 [generation_reply "3"; generation_reply good_answer])
     = Ok unexpected
  /\ calls is_generation_call
       (trace_of (search_books toy_number (Ok (PyDict python_body))
                    [generation_reply "3"; generation_reply good_answer])) = 1.
Proof.
  split; [reflexivity|].
  assert (Hne : strip "python books" <> EmptyString) by (vm_compute; discriminate).
  rewrite (scalar_answer_is_unexpected toy_number python_body "python books"
             [generation_reply "3"; generation_reply good_answer] (PyInt 3)
             eq_refl Hne eq_refl eq_refl eq_refl).
  split; reflexivity.
Defined.

Lemma retry_result_is_searched_witness :
  let run := search_books toy (Ok (PyDict python_body)) retry_succeeds in
  let params := PyDict [(PyStr "q", PyStr "python"); (PyStr "3", PyStr "3")] in
  search_params config_q_python = Ok params
  /\ nth_error (trace_of run) 3
     = Some (EvHttp (Get OPEN_LIBRARY_URL params) (json_reply (PyDict four_docs)))
  /\ calls is_search_call (trace_of run) = 1.
Proof.
  intros run params. split; [reflexivity|].
  assert (Hne : strip "python books" <> EmptyString) by (vm_compute; discriminate).
  destruct (retry_result_is_searched toy python_body "python books" retry_succeeds
              params eq_refl Hne eq_refl eq_refl eq_refl eq_refl eq_refl)
    as [Hfirst Hone].
  split; [|exact Hone].
  reflexivity.
Defined.

Lemma full_pipeline_witness :
  search_books toy (Ok (PyDict python_body)) all_answer
  = (Ok {| status := 200;
           content := Stream "text/plain" ["Chunk1" ++ nl; "Chunk2" ++ nl] true |},
     [],
     [EvModeration "python books" false;
      EvHttp (generation_request "python books") (generation_reply good_answer);
      EvHttp (Get OPEN_LIBRARY_URL
                  (PyDict [(PyStr "q", PyStr "python"); (PyStr "3", PyStr "3")]))
             (json_reply (PyDict four_docs));
      EvHttp (refinement_request "python books"
                ((bullet ++ " 'Book A' by Author A, Author B") ++ nl
                 ++ (bullet ++ " 'Book B' by Unknown Author") ++ nl
                 ++ (bullet ++ " 'Unknown Title' by Unknown Author")))
             (lines_reply ["Chunk1"; "Chunk2"])]).
Proof.
  assert (Hne : strip "python books" <> EmptyString) by (vm_compute; discriminate).
  exact (full_pipeline toy python_body "python books" all_answer
           config_q_python
           (PyDict [(PyStr "q", PyStr "python"); (PyStr "3", PyStr "3")])
           (PyDict four_docs)
           {| raise_for_status := None; json_body := Ok (PyDict four_docs);
              iter_lines := [] |}
           {| raise_for_status := None;
              json_body := Raise (Exn "JSONDecodeError" "Expecting value");
              iter_lines := ["Chunk1"; "Chunk2"] |}
           _
           eq_refl Hne eq_refl eq_refl eq_refl eq_refl eq_refl
           eq_refl eq_refl eq_refl eq_refl eq_refl eq_refl eq_refl).
Defined.

Lemma calls_are_moderation_then_known_endpoints_witness :
  trace_of (search_books toy (Ok (PyDict rude_body)) all_answer)
  = [EvModeration "This is a shitty query" true].
Proof.
  destruct (calls_are_moderation_then_known_endpoints toy
              (Ok (PyDict rude_body)) all_answer)
    as [Hnone|(q & flagged & rest & Htrace & _ & _ & Hflagged)].
  - vm_compute in Hnone. discriminate Hnone.
  - rewrite Htrace.
    change (trace_of (search_books toy (Ok (PyDict rude_body)) all_answer))
      with [EvModeration "This is a shitty query" true] in Htrace.
    injection Htrace as Hq Hf Hrest.
    rewrite <- Hq, <- Hf, <- Hrest. reflexivity.
Defined.

Lemma non_object_body_calls_nobody_witness :
  search_books toy (Ok (PyList [PyStr "query"])) all_answer
  = (Ok unexpected, all_answer, [])
  /\ search_books toy (Ok (PyList [PyStr "python"])) all_answer
     = (Ok invalid_input_response, all_answer, []).
Proof.
  split.
  - destruct (non_object_body_calls_nobody toy (Ok (PyList [PyStr "query"]))
                all_answer) as [H|H]; [discriminate| |exact H].
    vm_compute in H. discriminate H.
  - destruct (non_object_body_calls_nobody toy (Ok (PyList [PyStr "python"]))
                all_answer) as [H|H]; [discriminate|exact H|].
    vm_compute in H. discriminate H.
Defined.

Lemma only_the_stripped_query_matters_witness :
  let padded := [(PyStr "page", PyInt 2);
                 (PyStr "query", PyStr ("  python books " ++ nl))] in
  strip ("  python books " ++ nl) = strip "python books"
  /\ search_books toy (Ok (PyDict padded)) all_answer
     = search_books toy (Ok (PyDict python_body)) all_answer.
Proof.
  intro padded. split; [reflexivity|].
  apply (only_the_stripped_query_matters toy padded python_body
           ("  python books " ++ nl) "python books" all_answer);
    try reflexivity.
  vm_compute. discriminate.
Defined.

Lemma equal_names_drop_the_query_value_witness :
  let config := [(PyStr "query_type", PyStr "3");
                 (PyStr "query_value", PyStr "dune");
                 (PyStr "limit", PyStr "3")] in
  trace_of (search_books_with_openlibrary toy (PyDict config)
              [json_reply (PyDict four_docs)])
  = [EvHttp (Get OPEN_LIBRARY_URL (PyDict [(PyStr "3", PyStr "3")]))
            (json_reply (PyDict four_docs))].
Proof.
  intro config.
  exact (equal_names_drop_the_query_value toy config "3" "3" (PyStr "dune")
           [json_reply (PyDict four_docs)] eq_refl eq_refl eq_refl).
Defined.

Lemma search_needs_a_dict_witness :
  search_books_with_openlibrary toy (PyList [PyStr "q"; PyStr "python"])
    [json_reply (PyDict four_docs)]
  = (Ok (error_payload
           "Open Library API failed: 'list' object has no attribute 'get'"),
     [json_reply (PyDict four_docs)], []).
Proof.
  exact (search_needs_a_dict toy (PyList [PyStr "q"; PyStr "python"])
           [json_reply (PyDict four_docs)] eq_refl).
Defined.

Lemma bad_document_blocks_refinement_witness :
  let books := [(PyStr "docs", PyList [book_a; PyStr "Book B"; PyDict []])] in
  Forall2 represents [book_a]
    [{| title := Some "Book A"; author_name := Some ["Author A"; "Author B"] |}]
  /\ refine_response_with_ollama toy "User query" (PyDict books)
       [lines_reply ["Chunk1"]]
     = (Ok (jsonify (error_payload
                       "Refinement failed: 'str' object has no attribute 'get'") 500),
        [lines_reply ["Chunk1"]], []).
Proof.
  intro books.
  assert (Hrep : Forall2 represents [book_a]
            [{| title := Some "Book A";
                author_name := Some ["Author A"; "Author B"] |}])
    by (repeat constructor; eexists; repeat split; reflexivity).
  split; [exact Hrep|].
  refine (bad_document_blocks_refinement toy books [book_a] (PyStr "Book B")
            [PyDict []] _ "User query" [lines_reply ["Chunk1"]]
            eq_refl _ Hrep eq_refl).
  simpl. lia.
Defined.

Lemma empty_result_is_still_refined_witness :
  let books := [(PyStr "numFound", PyInt 0)] in
  refine_response_with_ollama toy "User query" (PyDict books)
    [lines_reply ["Chunk1"]]
  = (Ok {| status := 200; content := Stream "text/plain" ["Chunk1" ++ nl] true |},
     [],
     [EvHttp (refinement_request "User query" EmptyString)
             (lines_reply ["Chunk1"])]).
Proof.
  intro books.
  exact (empty_result_is_still_refined toy books "User query"
           [lines_reply ["Chunk1"]] eq_refl).
Defined.

Lemma stream_is_a_prefix_of_the_lines_witness :
  snd (stream_chunks ["Chunk1"; EmptyString; "Chunk2"]) = true
  /\ fst (stream_chunks ["Chunk1"; EmptyString; "Chunk2"])
     = ["Chunk1" ++ nl; "Chunk2" ++ nl].
Proof.
  split; [reflexivity|].
  exact (proj2 (stream_is_a_prefix_of_the_lines ["Chunk1"; EmptyString; "Chunk2"])
           eq_refl).
Defined.

Lemma stream_stops_at_undecodable_line_witness :
  utf8_valid (list_ascii_of_string bad_line) = false
  /\ stream_chunks ["Chunk1"; EmptyString; bad_line; "Chunk2"]
     = (["Chunk1" ++ nl], false).
Proof.
  split; [reflexivity|].
  refine (stream_stops_at_undecodable_line ["Chunk1"; EmptyString] bad_line
            ["Chunk2"] _ eq_refl eq_refl).
  repeat constructor.
Defined.

Lemma unhashable_name_sends_nothing_witness :
  let config := [(PyStr "query_type", PyStr "q"); (PyStr "limit", PyList [PyInt 3])] in
  search_books_with_openlibrary toy (PyDict config) [json_reply (PyDict four_docs)]
  = (Ok (error_payload "Open Library API failed: unhashable type: 'list'"),
     [json_reply (PyDict four_docs)], []).
Proof.
  intro config.
  exact (unhashable_name_sends_nothing toy config [json_reply (PyDict four_docs)]
           eq_refl).
Defined.
